(** * Timetabling demo: the CP-SAT model of [scenario_b_feasible.py] and the
      chart of [plot_schedule.py]

    The script builds a boolean model over the keys
    [(student, subject, day, period, room)], posts five families of linear
    constraints and a linear objective, calls an external solver, and decodes
    the values of the variables into schedule entries that it passes to
    [plot_schedule].  The embedding keeps the loops of the script as nested
    enumerations, the dictionaries as association lists in insertion order,
    and the solver as an interface with the guarantees CP-SAT documents. *)

From HB Require Import structures.
From Stdlib Require Import String Ascii DecimalString.
From mathcomp Require Import ssreflect ssrfun ssrbool eqtype ssrnat seq div.
From mathcomp Require Import path bigop.

Set Implicit Arguments.
Unset Strict Implicit.
Unset Printing Implicit Defensive.

Open Scope string_scope.
Open Scope seq_scope.
Open Scope nat_scope.

(** ** Strings *)

HB.instance Definition _ := hasDecEq.Build string String.eqb_spec.

(** [str(n)] and the f-string interpolation of a non-negative [int]. *)
Definition str (n : nat) : string := NilEmpty.string_of_uint (Nat.to_uint n).

(** The line feed of ["\n"]. *)
Definition LF : string := String (ascii_of_nat 10) EmptyString.

(** ** Python containers *)

(** A [dict] is kept as its items in insertion order; the keys of a dict are
    pairwise distinct. *)
Definition dict (K V : Type) := seq (K * V).

Section Dict.
Variables (K : eqType) (V : Type).
Implicit Types (d : dict K V) (k : K) (v : V).

Definition keys d : seq K := [seq kv.1 | kv <- d].
Definition values d : seq V := [seq kv.2 | kv <- d].

(** [d[k]]: [None] stands for [KeyError]. *)
Fixpoint dget d k : option V :=
  if d is (k', v) :: d' then if k' == k then Some v else dget d' k else None.

(** [d[k] = v]: an existing key keeps its position, a new one goes last. *)
Fixpoint dset d k v : dict K V :=
  if d is (k', v') :: d' then
    if k' == k then (k', v) :: d' else (k', v') :: dset d' k v
  else [:: (k, v)].

(** A dict comprehension [{k: v for ...}] over the listed items. *)
Definition dict_of (items : seq (K * V)) : dict K V :=
  foldl (fun d kv => dset d kv.1 kv.2) [::] items.

End Dict.

(** [for a in l: ...] where the body only appends to a list. *)
Definition foreach {A B : Type} (l : seq A) (body : A -> seq B) : seq B :=
  flatten [seq body a | a <- l].

(** The same loop when the body may raise: the first exception ends it. *)
Fixpoint oforeach {A B : Type} (l : seq A) (body : A -> option (seq B))
  : option (seq B) :=
  if l is a :: l' then
    if body a is Some ys then
      if oforeach l' body is Some zs then Some (ys ++ zs) else None
    else None
  else Some [::].

(** [range(n)] *)
Definition range (n : nat) : seq nat := iota 0 n.

(** ** The data of the script *)

(** The tables of the "Data" section.  [periods] is [range(n_periods)];
    [allowed_days_t1] lists the day indices on which teacher ["T1"] works. *)
Record Config := {
  students : seq string;
  subjects : seq string;
  days : seq string;
  n_periods : nat;
  rooms : dict string string;
  teachers : dict string string;
  subject_hours : dict string nat;
  allowed_days_t1 : seq nat }.

Definition periods (c : Config) : seq nat := range (n_periods c).

(** The tables as the script ships them. *)
Definition scenario_b : Config := {|
  students := [:: "S1"; "S2"; "S3"];
  subjects := [:: "A"; "B"; "C"; "D"; "E"];
  days := [:: "Mon"; "Tue"; "Wed"; "Thu"; "Fri"];
  n_periods := 5;
  rooms := [:: ("A", "Room_A"); ("B", "Room_B"); ("C", "Room_C");
               ("D", "Room_D"); ("E", "Room_E")];
  teachers := [:: ("A", "T1"); ("B", "T2"); ("C", "T3"); ("D", "T4");
                  ("E", "T5")];
  subject_hours := [:: ("A", 2); ("B", 2); ("C", 5); ("D", 1); ("E", 1)];
  allowed_days_t1 := [:: 1; 2] |}.

(** ** The CP-SAT model *)

(** A decision variable is identified with its key in the dict [x]:
    [(student, subject, day, period, room)]. *)
Definition BoolVar : Type := string * string * nat * nat * string.

Inductive Relop := EQ | LE.

(** [model.Add(sum(scope) == bound)] and [model.Add(sum(scope) <= bound)];
    [model.Add(x == 0)] is the first with a one-variable scope. *)
Record Constraint := Linear {
  scope : seq BoolVar;
  relop : Relop;
  bound : nat }.

Definition bool_of_relop (o : Relop) : bool := if o is EQ then true else false.
Definition relop_of_bool (b : bool) : Relop := if b then EQ else LE.
Lemma bool_of_relopK : cancel bool_of_relop relop_of_bool.
Proof. by case. Qed.
HB.instance Definition _ := Equality.copy Relop (can_type bool_of_relopK).

Definition tuple_of_constraint (ct : Constraint) :=
  (scope ct, relop ct, bound ct).
Definition constraint_of_tuple (t : seq BoolVar * Relop * nat) : Constraint :=
  Linear t.1.1 t.1.2 t.2.
Lemma tuple_of_constraintK : cancel tuple_of_constraint constraint_of_tuple.
Proof. by case. Qed.
HB.instance Definition _ :=
  Equality.copy Constraint (can_type tuple_of_constraintK).

(** The model handed to the solver: the posted constraints and the terms of
    the sum given to [model.Minimize]. *)
Record CpModel := {
  constraints : seq Constraint;
  objective : seq BoolVar }.

Section Build.
Variable c : Config.

(** [range(len(days))] and [rooms.values()]. *)
Definition day_indices : seq nat := range (size (days c)).
Definition room_list : seq string := values (rooms c).

(** Lines 36-40: the numbers of the quick sanity check. *)
Definition required_A_lessons : option nat :=
  if dget (subject_hours c) "A" is Some h then Some (size (students c) * h)
  else None.

Definition t1_capacity : nat := size (periods c) * size (allowed_days_t1 c).

(** Lines 47-55: the keys under which [x] holds a variable, once each. *)
Definition x_loop : seq BoolVar :=
  foreach (students c) (fun s =>
  foreach (subjects c) (fun subj =>
  foreach day_indices (fun d =>
  foreach (periods c) (fun p =>
  foreach room_list (fun r => [:: (s, subj, d, p, r)]))))).

Definition x : seq BoolVar := undup x_loop.

(** Lines 57-67: each student gets the weekly hours of each subject. *)
Definition hours_scope (s subj : string) : seq BoolVar :=
  foreach day_indices (fun d =>
  foreach (periods c) (fun p =>
  foreach room_list (fun r => [:: (s, subj, d, p, r)]))).

Definition hours_constraints : option (seq Constraint) :=
  oforeach (students c) (fun s =>
  oforeach (subjects c) (fun subj =>
    if dget (subject_hours c) subj is Some h
    then Some [:: Linear (hours_scope s subj) EQ h] else None)).

(** Lines 69-79: a student has at most one lesson in a slot. *)
Definition student_scope (s : string) (d p : nat) : seq BoolVar :=
  foreach (subjects c) (fun subj =>
  foreach room_list (fun r => [:: (s, subj, d, p, r)])).

Definition student_constraints : seq Constraint :=
  foreach (students c) (fun s =>
  foreach day_indices (fun d =>
  foreach (periods c) (fun p => [:: Linear (student_scope s d p) LE 1]))).

(** Lines 81-91: a room hosts at most one class in a slot. *)
Definition room_scope (r : string) (d p : nat) : seq BoolVar :=
  foreach (students c) (fun s =>
  foreach (subjects c) (fun subj => [:: (s, subj, d, p, r)])).

Definition room_constraints : seq Constraint :=
  foreach room_list (fun r =>
  foreach day_indices (fun d =>
  foreach (periods c) (fun p => [:: Linear (room_scope r d p) LE 1]))).

(** Lines 93-103: posted per subject, under the heading "Teacher cannot
    teach two classes at same time". *)
Definition teacher_scope (subj : string) (d p : nat) : seq BoolVar :=
  foreach (students c) (fun s =>
  foreach room_list (fun r => [:: (s, subj, d, p, r)])).

Definition teacher_constraints : seq Constraint :=
  foreach (subjects c) (fun subj =>
  foreach day_indices (fun d =>
  foreach (periods c) (fun p => [:: Linear (teacher_scope subj d p) LE 1]))).

(** Lines 105-113: teacher ["T1"] only works on the allowed days. *)
Definition t1_constraints : option (seq Constraint) :=
  oforeach (students c) (fun s =>
  oforeach (subjects c) (fun subj =>
    if dget (teachers c) subj is Some t then
      Some (if t == "T1" then
              foreach day_indices (fun d =>
                if d \notin allowed_days_t1 c then
                  foreach (periods c) (fun p =>
                  foreach room_list (fun r =>
                    [:: Linear [:: (s, subj, d, p, r)] EQ 0]))
                else [::])
            else [::])
    else None)).

(** Lines 115-124: the variables that place a lesson outside the subject's
    preferred room. *)
Definition penalties : option (seq BoolVar) :=
  oforeach (students c) (fun s =>
  oforeach (subjects c) (fun subj =>
    if dget (rooms c) subj is Some preferred_room then
      Some (foreach day_indices (fun d =>
            foreach (periods c) (fun p =>
            foreach room_list (fun r =>
              if r != preferred_room then [:: (s, subj, d, p, r)]
              else [::]))))
    else None)).

(** Lines 4-126 in order; [None] when a table lookup raises [KeyError]. *)
Definition model : option CpModel :=
  if required_A_lessons is Some _ then
    if hours_constraints is Some c1 then
      if t1_constraints is Some c5 then
        if penalties is Some pen then
          Some {| constraints := c1 ++ student_constraints ++ room_constraints
                                    ++ teacher_constraints ++ c5;
                  objective := pen |}
        else None
      else None
    else None
  else None.

End Build.

(** ** The solver *)

(** [cp_model]'s status codes. *)
Inductive CpSolverStatus :=
  UNKNOWN | MODEL_INVALID | FEASIBLE | INFEASIBLE | OPTIMAL.

Definition status_code (st : CpSolverStatus) : nat :=
  match st with
  | UNKNOWN => 0 | MODEL_INVALID => 1 | FEASIBLE => 2
  | INFEASIBLE => 3 | OPTIMAL => 4
  end.

Definition status_eqb (a b : CpSolverStatus) : bool :=
  status_code a == status_code b.
Lemma status_eqP : Equality.axiom status_eqb.
Proof. by case; case; constructor. Qed.
HB.instance Definition _ := hasDecEq.Build CpSolverStatus status_eqP.

(** What [solver.Value] answers for each variable. *)
Definition Assignment : Type := BoolVar -> bool.

(** The value of [sum(scope)] under an assignment. *)
Definition lin_value (v : Assignment) (e : seq BoolVar) : nat :=
  sumn [seq nat_of_bool (v k) | k <- e].

Definition holds (v : Assignment) (ct : Constraint) : bool :=
  match relop ct with
  | EQ => lin_value v (scope ct) == bound ct
  | LE => lin_value v (scope ct) <= bound ct
  end.

Definition satisfies (m : CpModel) (v : Assignment) : bool :=
  all (holds v) (constraints m).

Definition objective_value (m : CpModel) (v : Assignment) : nat :=
  lin_value v (objective m).

(** [status in [cp_model.OPTIMAL, cp_model.FEASIBLE]] *)
Definition accepted (st : CpSolverStatus) : bool :=
  st \in [:: OPTIMAL; FEASIBLE].

(** [CpSolver] is a library outside the repository.  A solver is any
    function from models to a status and the values it then reports, with
    the two guarantees of CP-SAT: the values of a [FEASIBLE] or [OPTIMAL]
    answer satisfy every posted constraint, and an [OPTIMAL] answer has the
    least objective among all such assignments.  The time limit and the
    search log set on lines 130-131 only bear on which of these answers
    comes back, so a statement about every solver covers them. *)
Record CpSolver := {
  Solve : CpModel -> CpSolverStatus * Assignment;
  Solve_sound : forall m,
    accepted (Solve m).1 -> satisfies m (Solve m).2;
  Solve_optimal : forall m v,
    (Solve m).1 = OPTIMAL -> satisfies m v ->
    objective_value m (Solve m).2 <= objective_value m v }.

(** A solver that checks a proposed assignment: it answers with the proposal
    when it satisfies the model ([OPTIMAL] when its objective is 0, the least
    value a sum of booleans can take) and gives up with [UNKNOWN] otherwise. *)
Definition check_hint (hint : Assignment) (m : CpModel)
  : CpSolverStatus * Assignment :=
  if satisfies m hint then
    (if objective_value m hint == 0 then OPTIMAL else FEASIBLE, hint)
  else (UNKNOWN, hint).

Lemma check_hint_sound hint m :
  accepted (check_hint hint m).1 -> satisfies m (check_hint hint m).2.
Proof. by rewrite /check_hint; case: ifP. Qed.

Lemma check_hint_optimal hint m v :
  (check_hint hint m).1 = OPTIMAL -> satisfies m v ->
  objective_value m (check_hint hint m).2 <= objective_value m v.
Proof.
rewrite /check_hint; case: ifP => //= _; case: ifP => // /eqP -> _ _.
exact: leq0n.
Qed.

Definition hint_solver (hint : Assignment) : CpSolver :=
  {| Solve := check_hint hint;
     Solve_sound := @check_hint_sound hint;
     Solve_optimal := @check_hint_optimal hint |}.

(** An assignment given by the list of its true variables. *)
Definition true_on (ks : seq BoolVar) : Assignment := fun k => k \in ks.

(** ** Schedule entries *)

(** [(student, day_index, period_index, subject, room)] *)
Definition Entry : Type := string * nat * nat * string * string.

Definition student_of (e : Entry) : string := e.1.1.1.1.
Definition day_of (e : Entry) : nat := e.1.1.1.2.
Definition period_of (e : Entry) : nat := e.1.1.2.
Definition subject_of (e : Entry) : string := e.1.2.
Definition room_of (e : Entry) : string := e.2.

(** The variable an entry is read from. *)
Definition var_of (e : Entry) : BoolVar :=
  (student_of e, subject_of e, day_of e, period_of e, room_of e).

(** [enumerate(l)] *)
Definition enumerate {A : Type} (l : seq A) : seq (nat * A) :=
  zip (iota 0 (size l)) l.

(** ** [plot_schedule] *)

(** A coordinate that Python holds as a float: [Halves n] is [n / 2].  Every
    float of the function is an integer plus [0.5], [row_height / 2] or
    [period_count / 2]. *)
Inductive coord := Halves (n : nat).
Definition whole (n : nat) : coord := Halves (2 * n).

Section PlotSchedule.

(** The colour type of matplotlib and the colormap [plt.get_cmap("tab10")],
    called on an index. *)
Variable Color : Type.
Variable cmap : nat -> Color.

(** The calls the function makes on [plt], [ax] and [print], in order. *)
Inductive PlotCmd :=
| Say (line : string)
| Subplots (width height : nat)
| BrokenBarh (start width y height : nat) (facecolors : Color)
| Text (xpos ypos : coord) (label : string)
| SetXticks (ticks : seq coord) (minor : bool)
| SetXticklabels (labels : seq string) (minor : bool)
| Grid (axis : string)
| Axvline (xpos : nat)
| SetYticks (ticks : seq coord)
| SetYticklabels (labels : seq string)
| SetXlim (lo hi : nat)
| SetYlim (lo hi : nat)
| SetXlabel (label : string)
| SetTitle (label : string)
| Legend (handles : seq (Color * string))
| TightLayout
| Savefig (path : string)
| PltShow.

(** Calls that put something on the figure, and calls that write a file. *)
Definition draws (cmd : PlotCmd) : bool :=
  match cmd with
  | Say _ | Savefig _ | PltShow => false
  | _ => true
  end.

Definition persists (cmd : PlotCmd) : bool :=
  if cmd is Savefig _ then true else false.

Definition row_height : nat := 8.
Definition row_gap : nat := 7.

Section Body.
Variables (entries : seq Entry) (students days : seq string).
Variables (periods : seq nat) (output_path : string).

Definition period_count : nat := size periods.
Definition total_slots : nat := size days * period_count.

(** Lines 24-29.  The set comprehension keeps each room once and [sorted]
    orders the rooms as strings. *)
Definition unique_rooms : seq string :=
  sort String.leb (undup [seq room_of e | e <- entries]).

Definition room_colors : dict string Color :=
  dict_of [seq (ir.2, cmap (ir.1 %% 10)) | ir <- enumerate unique_rooms].

(** Lines 33-47. *)
Definition reversed_students : seq string := rev students.

Definition y_of (idx : nat) : nat := 10 + idx * (row_height + row_gap).

Definition y_map : dict string nat :=
  dict_of [seq (ist.2, y_of ist.1) | ist <- enumerate reversed_students].

Definition y_ticks : seq coord :=
  [seq Halves (2 * y_of ist.1 + row_height)
  | ist <- enumerate reversed_students].

Definition y_labels : seq string := reversed_students.

(** Lines 50-71: one block and one label per entry; either lookup may raise
    [KeyError]. *)
Definition lesson_blocks : option (seq PlotCmd) :=
  oforeach entries (fun e =>
    let start := day_of e * period_count + period_of e in
    if dget room_colors (room_of e) is Some color then
      if dget y_map (student_of e) is Some y then
        Some [:: BrokenBarh start 1 y row_height color;
                 Text (Halves (2 * start + 1)) (Halves (2 * y + row_height))
                      (subject_of e)]
      else None
    else None).

(** Lines 75-87. *)
Definition boundaries : seq coord := [seq whole i | i <- range total_slots.+1].
Definition centers : seq coord :=
  [seq Halves (2 * i + 1) | i <- range total_slots].
Definition center_labels : seq string :=
  foreach days (fun day_name =>
  foreach periods (fun period_idx =>
    [:: day_name ++ LF ++ "P" ++ str (period_idx + 1)]))%string.

(** Line 99; [max] of an empty sequence raises [ValueError]. *)
Definition top_y : option nat :=
  if values y_map is y :: ys then Some (foldr maxn y ys + row_height + 4)
  else None.

(** Lines 123-126. *)
Definition legend_handles : option (seq (Color * string)) :=
  oforeach unique_rooms (fun room =>
    if dget room_colors room is Some color then Some [:: (color, room)]
    else None).

(** Lines 15-137: the calls the function issues, in order.  [None] stands for
    an exception raised by the code of the function itself, the [KeyError]
    of a dict lookup or the [ValueError] of [max]; what matplotlib does with
    a call it receives is not described here. *)
Definition plot_schedule : option (seq PlotCmd) :=
  if entries is [::] then Some [:: Say "No entries to plot."]
  else
    if lesson_blocks is Some blocks then
      if top_y is Some top then
        if legend_handles is Some handles then
          Some ([:: Subplots 16 5] ++ blocks ++
                [:: SetXticks boundaries false;
                    SetXticklabels [::] false;
                    SetXticks centers true;
                    SetXticklabels center_labels true;
                    Grid "x"; Grid "y"] ++
                [seq Axvline (day_idx * period_count)
                | day_idx <- range (size days).+1] ++
                [seq Text (Halves (2 * (idn.1 * period_count) + period_count))
                          (whole top) idn.2
                | idn <- enumerate days] ++
                [:: SetYticks y_ticks;
                    SetYticklabels y_labels;
                    SetXlim 0 total_slots;
                    SetYlim 8 (top + 3);
                    SetXlabel "Week timeline";
                    SetTitle "School schedule Gantt view";
                    Legend handles;
                    TightLayout;
                    Savefig output_path;
                    Say ("Chart saved to: " ++ output_path)%string;
                    PltShow])
        else None
      else None
    else None.

End Body.
End PlotSchedule.

(** ** The script *)

Section Decode.
Variables (c : Config) (v : Assignment).

(** Lines 152-157: the true variables of one slot of one student. *)
Definition slot_entries (s : string) (d p : nat) : seq Entry :=
  foreach (subjects c) (fun subj =>
  foreach (room_list c) (fun r =>
    if v (s, subj, d, p, r) then [:: (s, d, p, subj, r)] else [::])).

(** Lines 146-157: the list [entries] when the loops end. *)
Definition entries : seq Entry :=
  foreach (students c) (fun s =>
  foreach (day_indices c) (fun d =>
  foreach (periods c) (fun p => slot_entries s d p))).

(** Lines 148-159: what the same loops print. *)
Definition lesson_line (e : Entry) : string :=
  (nth "" (days c) (day_of e) ++ " Period " ++ str (period_of e + 1) ++ ": "
   ++ subject_of e ++ " in " ++ room_of e)%string.

Definition free_line (d p : nat) : string :=
  (nth "" (days c) d ++ " Period " ++ str (p + 1) ++ ": ---")%string.

Definition report : seq string :=
  foreach (students c) (fun s =>
    (LF ++ "Schedule for " ++ s)%string ::
    foreach (day_indices c) (fun d =>
    foreach (periods c) (fun p =>
      let found := slot_entries s d p in
      if found is [::] then [:: free_line d p]
      else [seq lesson_line e | e <- found]))).

End Decode.

(** Lines 135-141; every status code has its entry in the dict, so the
    default [str(status)] of [.get] is never used. *)
Definition status_name (st : CpSolverStatus) : string :=
  match st with
  | OPTIMAL => "OPTIMAL"
  | FEASIBLE => "FEASIBLE"
  | INFEASIBLE => "INFEASIBLE"
  | MODEL_INVALID => "MODEL_INVALID"
  | UNKNOWN => "UNKNOWN"
  end.

(** What a run does, as seen from outside: the lines it prints, the call of
    the solver and the call of [plot_schedule] with its arguments. *)
Inductive Event :=
| PrintLine (line : string)
| CallSolve (m : CpModel)
| CallPlot (entries : seq Entry) (students days : seq string)
           (periods : seq nat) (output_path : string).

Definition is_solve (ev : Event) : bool :=
  if ev is CallSolve _ then true else false.
Definition is_plot (ev : Event) : bool :=
  if ev is CallPlot _ _ _ _ _ then true else false.


(** The run of the script with a given solver on given tables; [None] when a
    table lookup raises.  The run ends with the call of [plot_schedule],
    recorded with its arguments; what the call does is [plot_schedule]. *)
Record Run := {
  status : CpSolverStatus;
  trace : seq Event }.

Definition main (S : CpSolver) (c : Config) : option Run :=
  if required_A_lessons c is Some required then
    if model c is Some m then
      let: (st, v) := Solve S m in
      Some {| status := st;
              trace :=
                [:: PrintLine "Quick sanity check:";
                    PrintLine ("Required A lessons: " ++ str required)%string;
                    PrintLine ("T1 capacity on allowed days: "
                           ++ str (t1_capacity c))%string;
                    CallSolve m;
                    PrintLine (LF ++ "Solver status: " ++ status_name st)%string]
                ++ if accepted st then
                     [seq PrintLine line | line <- report c v] ++
                     [:: CallPlot (entries c v) (students c) (days c)
                                  (periods c) "scenario_b_gantt.png"]
                   else [:: PrintLine "No feasible schedule found."] |}
    else None
  else None.


(** ** Vocabulary of the statements *)

(** The components of a key. *)
Definition var_student (k : BoolVar) : string := k.1.1.1.1.
Definition var_subject (k : BoolVar) : string := k.1.1.1.2.
Definition var_day (k : BoolVar) : nat := k.1.1.2.
Definition var_period (k : BoolVar) : nat := k.1.2.
Definition var_room (k : BoolVar) : string := k.2.

(** The keys over given index lists, in the nesting order of [x_loop]. *)
Definition nest (S Sub : seq string) (D P : seq nat) (R : seq string)
  : seq BoolVar :=
  foreach S (fun s => foreach Sub (fun subj => foreach D (fun d =>
  foreach P (fun p => foreach R (fun r => [:: (s, subj, d, p, r)]))))).

(** The variable places its lesson outside [rooms[subject]]. *)
Definition off_room (c : Config) (k : BoolVar) : bool :=
  dget (rooms c) (var_subject k) != Some (var_room k).

(** Every key in the order in which the decoding loops visit it. *)
Definition all_entries (c : Config) : seq Entry :=
  foreach (students c) (fun s =>
  foreach (day_indices c) (fun d =>
  foreach (periods c) (fun p =>
  foreach (subjects c) (fun subj =>
  foreach (room_list c) (fun r => [:: (s, d, p, subj, r)]))))).

(** The line that the script prints for a slot with at most one lesson. *)
Definition slot_line (c : Config) (v : Assignment) (s : string) (d p : nat)
  : string :=
  if slot_entries c v s d p is e :: _ then lesson_line c e else free_line c d p.

(** [start] of line 51 of [plot_schedule], and the calls that draw a lesson
    block. *)
Definition start_of (periods : seq nat) (e : Entry) : nat :=
  day_of e * period_count periods + period_of e.

Definition is_block (Color : Type) (cmd : PlotCmd Color) : bool :=
  if cmd is BrokenBarh _ _ _ _ _ then true else false.

(** ** Tables and timetables used as examples *)

(** A timetable for the shipped tables, as the list of its true variables. *)
Definition timetable_b : seq BoolVar :=
  [:: ("S1", "A", 1, 0, "Room_A"); ("S1", "A", 2, 0, "Room_A");
      ("S2", "A", 1, 1, "Room_A"); ("S2", "A", 2, 1, "Room_A");
      ("S3", "A", 1, 2, "Room_A"); ("S3", "A", 2, 2, "Room_A");
      ("S1", "B", 0, 0, "Room_B"); ("S1", "B", 0, 1, "Room_B");
      ("S2", "B", 0, 2, "Room_B"); ("S2", "B", 0, 3, "Room_B");
      ("S3", "B", 3, 0, "Room_B"); ("S3", "B", 3, 1, "Room_B");
      ("S1", "D", 1, 1, "Room_D"); ("S2", "D", 1, 2, "Room_D");
      ("S3", "D", 1, 3, "Room_D");
      ("S1", "E", 2, 1, "Room_E"); ("S2", "E", 2, 2, "Room_E");
      ("S3", "E", 2, 3, "Room_E")]
  ++ [seq ("S1", "C", 3, p, "Room_C") | p <- range 5]
  ++ [seq ("S2", "C", 4, p, "Room_C") | p <- range 5]
  ++ [seq ("S3", "C", 0, p, "Room_C") | p <- range 5].

(** The solver that proposes it, the model of the shipped tables and the run
    of the script with both (the defaults below are never reached). *)
Definition solver_b : CpSolver := hint_solver (true_on timetable_b).

Definition model_b : CpModel :=
  odflt {| constraints := [::]; objective := [::] |} (model scenario_b).

Definition run_b : Run :=
  odflt {| status := UNKNOWN; trace := [::] |} (main solver_b scenario_b).

(** The spec's pre-search check, in its words: for a teacher, the lessons
    required are the quotas of the subjects the teacher teaches, summed over
    all students, and the capacity is the number of allowed days times the
    periods per day (only ["T1"] has a restricted set of days). *)
Definition spec_required (c : Config) (t : string) : nat :=
  size (students c) *
  sumn [seq odflt 0 (dget (subject_hours c) subj)
       | subj <- subjects c & dget (teachers c) subj == Some t].

Definition spec_capacity (c : Config) (t : string) : nat :=
  (if t == "T1" then size (allowed_days_t1 c) else size (days c))
  * n_periods c.

Definition spec_overloaded (c : Config) : bool :=
  has (fun t => spec_capacity c t < spec_required c t) (values (teachers c)).

(** Two students, one subject with quota 1, and its teacher ["T1"] with no
    allowed day. *)
Definition t1_unavailable : Config := {|
  students := [:: "S1"; "S2"];
  subjects := [:: "A"];
  days := [:: "Mon"];
  n_periods := 1;
  rooms := [:: ("A", "Room_A")];
  teachers := [:: ("A", "T1")];
  subject_hours := [:: ("A", 1)];
  allowed_days_t1 := [::] |}.



(** A student, and a subject ["B"] that has no room. *)
Definition room_missing : Config := {|
  students := [:: "S1"];
  subjects := [:: "A"; "B"];
  days := [:: "Mon"];
  n_periods := 2;
  rooms := [:: ("A", "Room_A")];
  teachers := [:: ("A", "T1"); ("B", "T2")];
  subject_hours := [:: ("A", 1); ("B", 1)];
  allowed_days_t1 := [:: 0] |}.

(** Entries in eleven rooms, ["R0"] to ["R10"], and a palette that names a
    colour by its index. *)
Definition eleven_rooms : seq Entry :=
  [seq ("S1", 0, i, "A", ("R" ++ str i)%string) | i <- range 11].

Definition palette_index (i : nat) : nat := i.

(** Three lessons of two students, for the chart. *)
Definition chart_demo : seq Entry :=
  [:: ("S1", 0, 0, "A", "Room_A"); ("S2", 0, 1, "B", "Room_B");
      ("S1", 1, 1, "B", "Room_B")].

(** * Properties *)

(** ** Loops *)

Arguments foreach {A B} l body : simpl never.

Section Loops.
Variables (A B : Type).
Implicit Types (l : seq A) (body : A -> seq B).

Lemma foreach0 body : foreach [::] body = [::].
Proof. reflexivity. Qed.

Lemma foreach_cons a l body : foreach (a :: l) body = body a ++ foreach l body.
Proof. reflexivity. Qed.

Lemma foreach1 a body : foreach [:: a] body = body a.
Proof. by rewrite /foreach /= cats0. Qed.

Lemma eq_foreach l body body' :
  body =1 body' -> foreach l body = foreach l body'.
Proof. by move=> eqb; rewrite /foreach (eq_map eqb). Qed.



Lemma filter_foreach (P : pred B) l body :
  filter P (foreach l body) = foreach l (fun a => filter P (body a)).
Proof. by rewrite /foreach filter_flatten -map_comp. Qed.

Lemma foreach_filter (p : pred A) l body :
  foreach (filter p l) body = foreach l (fun a => if p a then body a else [::]).
Proof.
elim: l => [|a l IH] /=; rewrite ?foreach0 // [RHS]foreach_cons -IH.
by case: (p a).
Qed.

Lemma count_foreach (P : pred B) l body :
  count P (foreach l body) = sumn [seq count P (body a) | a <- l].
Proof. by rewrite /foreach count_flatten -map_comp. Qed.

Lemma all_foreach (P : pred B) l body :
  all P (foreach l body) = all (fun a => all P (body a)) l.
Proof.
by elim: l => [|a l IH]; rewrite ?foreach0 //= foreach_cons all_cat IH.
Qed.

Lemma oforeach_some l (body : A -> option (seq B)) r :
  oforeach l body = Some r -> r = foreach l (fun a => odflt [::] (body a)).
Proof.
elim: l r => [|a l IH] r /=; first by case=> <-; rewrite foreach0.
case Eb: (body a) => [ys|] //; case: (oforeach l body) IH => // zs IH [<-].
by rewrite foreach_cons Eb -(IH zs).
Qed.

Lemma oforeach_all l (body : A -> option (seq B)) r :
  oforeach l body = Some r -> all (fun a => body a) l.
Proof.
elim: l r => [|a l IH] r //=.
by case: (body a) => // ys; case: (oforeach l body) IH => // zs /(_ zs) ->.
Qed.

End Loops.

Lemma map_foreach (A B C : Type) (f : B -> C) (l : seq A) (body : A -> seq B) :
  map f (foreach l body) = foreach l (fun a => map f (body a)).
Proof. by rewrite /foreach map_flatten -map_comp. Qed.

Lemma mem_foreach (A B : eqType) (l : seq A) (body : A -> seq B) y :
  reflect (exists2 a, a \in l & y \in body a) (y \in foreach l body).
Proof. exact: flatten_mapP. Qed.

Lemma eq_in_foreach (A : eqType) (B : Type) (l : seq A) (f g : A -> seq B) :
  {in l, f =1 g} -> foreach l f = foreach l g.
Proof. by move=> fg; rewrite /foreach; congr flatten; apply/eq_in_map. Qed.


Lemma filter_pred1_nseq (A : eqType) (l : seq A) (a : A) :
  filter (pred1 a) l = nseq (count_mem a l) a.
Proof.
elim: l => [|b l IH] //=; case: eqP => [->|_] /=; last by rewrite add0n.
by rewrite IH.
Qed.

Lemma count_undup_once (A : eqType) (P : pred A) (l : seq A) :
  (forall k, k \in l -> P k -> count_mem k l = 1) ->
  count P (undup l) = count P l.
Proof.
elim: l => [|a l IH] // once.
have pos k : k \in l -> 0 < count_mem k l by rewrite -has_count has_pred1.
have once' k : k \in l -> P k -> count_mem k l = 1.
  move=> kl Pk; have := once k; rewrite in_cons kl orbT => /(_ isT Pk) /=.
  by move: (pos k kl); case: (count_mem k l) => // n _; rewrite addnS => -[] /eqP; rewrite addn_eq0 => /andP [_ /eqP ->].
rewrite /=; case: ifP => al; last by rewrite /= IH.
rewrite IH //; case Pa: (P a) => //.
have := once a; rewrite in_cons eqxx => /(_ isT Pa) /=; rewrite eqxx.
by move: (pos a al); case: (count_mem a l).
Qed.

Lemma uniq_count1 (A : eqType) (l : seq A) :
  (forall a, a \in l -> count_mem a l <= 1) -> uniq l.
Proof.
move=> le1; apply: count_mem_uniq => a.
case al: (a \in l); last by apply/count_memPn; rewrite al.
have := le1 a al; have: 0 < count_mem a l by rewrite -has_count has_pred1.
by case: (count_mem a l) => // [[|n]].
Qed.

Lemma foreach_all_nil (A B : Type) (l : seq A) (body : A -> seq B) :
  (forall a, body a = [::]) -> foreach l body = [::].
Proof.
by move=> nil; elim: l => [|a l IH]; rewrite ?foreach0 // foreach_cons nil IH.
Qed.

(** ** The product of the five index lists *)

Lemma x_loopE c :
  x_loop c = nest (students c) (subjects c) (day_indices c) (periods c)
                  (room_list c).
Proof. by []. Qed.

Ltac nil_loops := do ?[apply: foreach_all_nil => ?].

Lemma filter_nest_leaf (Q : pred BoolVar) S Sub D P R :
  filter Q (nest S Sub D P R) =
  foreach S (fun s => foreach Sub (fun subj => foreach D (fun d =>
  foreach P (fun p => foreach R (fun r =>
    if Q (s, subj, d, p, r) then [:: (s, subj, d, p, r)] else [::]))))).
Proof.
rewrite /nest filter_foreach; apply: eq_foreach => s.
rewrite filter_foreach; apply: eq_foreach => subj.
rewrite filter_foreach; apply: eq_foreach => d.
rewrite filter_foreach; apply: eq_foreach => p.
by rewrite filter_foreach.
Qed.

(** Filtering the product coordinate by coordinate filters each list. *)
Lemma filter_nest (pS pSub : pred string) (pD pP : pred nat) (pR : pred string)
    S Sub D P R :
  [seq k <- nest S Sub D P R
  | [&& pS (var_student k), pSub (var_subject k), pD (var_day k),
        pP (var_period k) & pR (var_room k)]]
  = nest (filter pS S) (filter pSub Sub) (filter pD D) (filter pP P)
         (filter pR R).
Proof.
rewrite filter_nest_leaf /nest foreach_filter; apply: eq_foreach => s.
rewrite /var_student /=; case: (pS s) => /=; last by nil_loops.
rewrite foreach_filter; apply: eq_foreach => subj.
rewrite /var_subject /=; case: (pSub subj) => /=; last by nil_loops.
rewrite foreach_filter; apply: eq_foreach => d.
rewrite /var_day /=; case: (pD d) => /=; last by nil_loops.
rewrite foreach_filter; apply: eq_foreach => p.
rewrite /var_period /=; case: (pP p) => /=; last by nil_loops.
by rewrite foreach_filter.
Qed.

(** ** What a satisfying assignment gets from each family of constraints *)

Lemma lin_valueE (v : Assignment) (e : seq BoolVar) : lin_value v e = count v e.
Proof. by rewrite /lin_value; elim: e => [|k e IH] //=; rewrite IH. Qed.

Lemma oforeach_allP (A : eqType) (B : Type) (P : pred B) (l : seq A)
    (body : A -> option (seq B)) (r : seq B) (a : A) :
  oforeach l body = Some r -> all P r -> a \in l ->
  exists2 ys, body a = Some ys & all P ys.
Proof.
move=> Er; rewrite (oforeach_some Er) all_foreach => /allP allr al.
have := allP (oforeach_all Er) _ al; have := allr _ al.
by case: (body a) => // ys; exists ys.
Qed.

Section ModelFacts.
Variables (c : Config) (m : CpModel) (v : Assignment).
Hypothesis build_ok : model c = Some m.
Hypothesis sat : satisfies m v.

Lemma model_parts :
  exists c1 c5,
    [/\ hours_constraints c = Some c1, t1_constraints c = Some c5,
        penalties c = Some (objective m)
      & constraints m = c1 ++ student_constraints c ++ room_constraints c
                           ++ teacher_constraints c ++ c5].
Proof.
move: build_ok; rewrite /model; case: (required_A_lessons c) => // _.
case: (hours_constraints c) => // c1; case: (t1_constraints c) => // c5.
by case: (penalties c) => // pen [<-]; exists c1, c5.
Qed.

Lemma sat_parts :
  exists c1 c5,
    [/\ hours_constraints c = Some c1, t1_constraints c = Some c5,
        all (holds v) c1 & all (holds v) c5].
Proof.
have [c1 [c5 [E1 E5 _ Em]]] := model_parts; exists c1, c5.
by move: sat; rewrite /satisfies Em !all_cat => /and5P [].
Qed.

Lemma sat_fixed :
  [/\ all (holds v) (student_constraints c),
      all (holds v) (room_constraints c)
    & all (holds v) (teacher_constraints c)].
Proof.
have [c1 [c5 [_ _ _ Em]]] := model_parts.
by move: sat; rewrite /satisfies Em !all_cat => /and5P [].
Qed.

Lemma hours_holds s subj :
  s \in students c -> subj \in subjects c ->
  exists2 h, dget (subject_hours c) subj = Some h
           & count v (hours_scope c s subj) = h.
Proof.
move=> sS subjS; have [c1 [_ [E1 _ sat1 _]]] := sat_parts.
have [r1 Er1 sat_r1] := oforeach_allP E1 sat1 sS.
have [r2] := oforeach_allP Er1 sat_r1 subjS.
case: (dget _ subj) => // h [<-]; rewrite /= andbT /holds /= lin_valueE.
by move/eqP; exists h.
Qed.

Lemma student_holds s d p :
  s \in students c -> d \in day_indices c -> p \in periods c ->
  count v (student_scope c s d p) <= 1.
Proof.
move=> sS dD pP; have [sat2 _ _] := sat_fixed.
move: sat2; rewrite all_foreach => /allP /(_ _ sS).
rewrite all_foreach => /allP /(_ _ dD); rewrite all_foreach => /allP /(_ _ pP).
by rewrite /= andbT /holds /= lin_valueE.
Qed.

Lemma room_holds r d p :
  r \in room_list c -> d \in day_indices c -> p \in periods c ->
  count v (room_scope c r d p) <= 1.
Proof.
move=> rR dD pP; have [_ sat3 _] := sat_fixed.
move: sat3; rewrite all_foreach => /allP /(_ _ rR).
rewrite all_foreach => /allP /(_ _ dD); rewrite all_foreach => /allP /(_ _ pP).
by rewrite /= andbT /holds /= lin_valueE.
Qed.

Lemma teacher_holds subj d p :
  subj \in subjects c -> d \in day_indices c -> p \in periods c ->
  count v (teacher_scope c subj d p) <= 1.
Proof.
move=> subjS dD pP; have [_ _ sat4] := sat_fixed.
move: sat4; rewrite all_foreach => /allP /(_ _ subjS).
rewrite all_foreach => /allP /(_ _ dD); rewrite all_foreach => /allP /(_ _ pP).
by rewrite /= andbT /holds /= lin_valueE.
Qed.

Lemma t1_holds s subj d p r :
  s \in students c -> subj \in subjects c -> d \in day_indices c ->
  p \in periods c -> r \in room_list c ->
  dget (teachers c) subj = Some "T1" -> d \notin allowed_days_t1 c ->
  v (s, subj, d, p, r) = false.
Proof.
move=> sS subjS dD pP rR Et dA; have [_ [c5 [_ E5 _ sat5]]] := sat_parts.
have [r1 Er1 sat_r1] := oforeach_allP E5 sat5 sS.
have [r2] := oforeach_allP Er1 sat_r1 subjS.
rewrite Et eqxx => -[<-]; rewrite all_foreach => /allP /(_ _ dD); rewrite dA.
rewrite all_foreach => /allP /(_ _ pP); rewrite all_foreach => /allP /(_ _ rR).
by rewrite /= andbT /holds /= /lin_value /= addn0; case: (v _).
Qed.

End ModelFacts.

(** ** Counting in the product *)

Lemma size_foreach_const (A B : Type) (l : seq A) (body : A -> seq B) n :
  (forall a, size (body a) = n) -> size (foreach l body) = size l * n.
Proof.
move=> szb; elim: l => [|a l IH]; rewrite ?foreach0 // foreach_cons size_cat.
by rewrite szb IH mulSn.
Qed.

Lemma size_nest S Sub D P R :
  size (nest S Sub D P R) = size S * (size Sub * (size D * (size P * size R))).
Proof.
do 4![apply: size_foreach_const => ?].
by rewrite (@size_foreach_const _ _ _ _ 1) ?muln1.
Qed.

Lemma pred1_var (k : BoolVar) :
  pred1 k =1 (fun k' => [&& pred1 (var_student k) (var_student k'),
                            pred1 (var_subject k) (var_subject k'),
                            pred1 (var_day k) (var_day k'),
                            pred1 (var_period k) (var_period k')
                          & pred1 (var_room k) (var_room k')]).
Proof.
case: k => [[[[s subj] d] p] r] [[[[s' subj'] d'] p'] r'] /=.
by rewrite !xpair_eqE -!andbA.
Qed.

Lemma count_nest (k : BoolVar) S Sub D P R :
  count_mem k (nest S Sub D P R) =
  count_mem (var_student k) S * (count_mem (var_subject k) Sub *
  (count_mem (var_day k) D * (count_mem (var_period k) P *
   count_mem (var_room k) R))).
Proof.
by rewrite -size_filter (eq_filter (pred1_var k)) filter_nest size_nest
           !size_filter.
Qed.

Lemma mem_nest (k : BoolVar) S Sub D P R :
  (k \in nest S Sub D P R) =
  [&& var_student k \in S, var_subject k \in Sub, var_day k \in D,
      var_period k \in P & var_room k \in R].
Proof.
by rewrite -has_pred1 has_count count_nest !muln_gt0 -!has_count !has_pred1.
Qed.

Lemma count_mem1 (A : eqType) (a : A) : count_mem a [:: a] = 1.
Proof. by rewrite /= eqxx. Qed.

(** The scopes of the constraints are slices of the product. *)
Lemma hours_scopeE c s subj :
  hours_scope c s subj =
  nest [:: s] [:: subj] (day_indices c) (periods c) (room_list c).
Proof. by rewrite /nest !foreach1. Qed.

Lemma student_scopeE c s d p :
  student_scope c s d p = nest [:: s] (subjects c) [:: d] [:: p] (room_list c).
Proof.
by rewrite /nest foreach1; apply: eq_foreach => subj; rewrite !foreach1.
Qed.

Lemma room_scopeE c r d p :
  room_scope c r d p = nest (students c) (subjects c) [:: d] [:: p] [:: r].
Proof.
rewrite /nest; apply: eq_foreach => s; apply: eq_foreach => subj.
by rewrite !foreach1.
Qed.

Lemma teacher_scopeE c subj d p :
  teacher_scope c subj d p =
  nest (students c) [:: subj] [:: d] [:: p] (room_list c).
Proof. by rewrite /nest; apply: eq_foreach => s; rewrite !foreach1. Qed.

(** ** The decoded entries are the true variables *)

Lemma perm_foreach (A : Type) (C : eqType) (l : seq A) (f g : A -> seq C) :
  (forall a, perm_eq (f a) (g a)) -> perm_eq (foreach l f) (foreach l g).
Proof.
move=> fg; elim: l => [|a l IH]; rewrite ?foreach0 // !foreach_cons.
exact: perm_cat.
Qed.

Lemma sumn_map_big (A : Type) (f : A -> nat) (l : seq A) :
  sumn [seq f a | a <- l] = \sum_(a <- l) f a.
Proof. by rewrite sumnE big_map. Qed.

Lemma perm_foreach_swap (A B : Type) (C : eqType) (la : seq A) (lb : seq B)
    (f : A -> B -> seq C) :
  perm_eq (foreach la (fun a => foreach lb (fun b => f a b)))
          (foreach lb (fun b => foreach la (fun a => f a b))).
Proof.
apply/permP => Q; rewrite !count_foreach !sumn_map_big.
under eq_bigr do rewrite count_foreach sumn_map_big.
rewrite exchange_big; apply: eq_bigr => b _.
by rewrite count_foreach sumn_map_big.
Qed.

Lemma entries_perm c v :
  perm_eq [seq var_of e | e <- entries c v] [seq k <- x_loop c | v k].
Proof.
rewrite x_loopE filter_nest_leaf /entries map_foreach.
apply: perm_foreach => s.
have step1 : perm_eq
    [seq var_of e | e <- foreach (day_indices c) (fun d =>
       foreach (periods c) (fun p => slot_entries c v s d p))]
    (foreach (day_indices c) (fun d => foreach (subjects c) (fun subj =>
     foreach (periods c) (fun p => foreach (room_list c) (fun r =>
       if v (s, subj, d, p, r) then [:: (s, subj, d, p, r)] else [::]))))).
  rewrite map_foreach; apply: perm_foreach => d.
  have -> : [seq var_of e | e <- foreach (periods c) (fun p =>
                slot_entries c v s d p)] =
            foreach (periods c) (fun p => foreach (subjects c) (fun subj =>
            foreach (room_list c) (fun r =>
              if v (s, subj, d, p, r) then [:: (s, subj, d, p, r)]
              else [::]))).
    rewrite map_foreach; apply: eq_foreach => p.
    rewrite /slot_entries map_foreach; apply: eq_foreach => subj.
    by rewrite map_foreach; apply: eq_foreach => r; case: (v _).
  exact: perm_foreach_swap.
apply: perm_trans step1 _; exact: perm_foreach_swap.
Qed.

Lemma count_entries c v (Q : pred BoolVar) :
  count (fun e => Q (var_of e)) (entries c v) =
  count (fun k => v k && Q k) (x_loop c).
Proof.
rewrite -[LHS]/(count (preim var_of Q) _) -count_map.
have /permP -> := entries_perm c v.
by rewrite count_filter; apply: eq_count => k /=; rewrite andbC.
Qed.

Lemma var_of_inj : injective var_of.
Proof.
move=> [[[[s d] p] subj] r] [[[[s' d'] p'] subj'] r'].
rewrite /var_of /student_of /subject_of /day_of /period_of /room_of /=.
by case=> -> -> -> -> ->.
Qed.

Lemma mem_entries c v e :
  (e \in entries c v) = (var_of e \in x_loop c) && v (var_of e).
Proof.
rewrite -(mem_map var_of_inj) (perm_mem (entries_perm c v)) mem_filter.
by rewrite andbC.
Qed.


Lemma range_uniq n : uniq (range n).
Proof. exact: iota_uniq. Qed.

Section TrueVars.
Variables (c : Config) (m : CpModel) (v : Assignment).
Hypothesis build_ok : model c = Some m.
Hypothesis sat : satisfies m v.

(** A true variable has its subject and its room listed once: a repeated
    one would count twice in the student's slot constraint. *)
Lemma true_var_listed_once k :
  k \in x_loop c -> v k ->
  count_mem (var_subject k) (subjects c) = 1 /\
  count_mem (var_room k) (room_list c) = 1.
Proof.
rewrite x_loopE mem_nest => /and5P [sS subjS dD pP rR] vk.
have := student_holds build_ok sat sS dD pP.
have le : count_mem k (student_scope c (var_student k) (var_day k)
                                     (var_period k))
          <= count v (student_scope c (var_student k) (var_day k)
                                    (var_period k)).
  by apply: sub_count => k' /= /eqP ->.
move=> /(leq_trans le); rewrite student_scopeE count_nest !count_mem1.
rewrite !mul1n.
have: 0 < count_mem (var_subject k) (subjects c).
  by rewrite -has_count has_pred1.
have: 0 < count_mem (var_room k) (room_list c).
  by rewrite -has_count has_pred1.
by case: (count_mem _ (room_list c)) => // [[|nr]] _;
  case: (count_mem _ (subjects c)) => // [[|ns]] _.
Qed.

Hypothesis students_uniq : uniq (students c).

Lemma true_var_once k : k \in x_loop c -> v k -> count_mem k (x_loop c) = 1.
Proof.
move=> kx vk; have [subj1 r1] := true_var_listed_once kx vk.
move: kx; rewrite x_loopE mem_nest count_nest subj1 r1 => /and5P [sS _ dD pP _].
by rewrite !count_uniq_mem ?range_uniq // sS dD pP.
Qed.

(** Counting true variables in the dict [x] or along the loop is the same. *)
Lemma count_x (Q : pred BoolVar) :
  count (fun k => v k && Q k) (x c) = count (fun k => v k && Q k) (x_loop c).
Proof.
by apply: count_undup_once => k kx /andP [vk _]; apply: true_var_once.
Qed.

End TrueVars.

(** ** Slices of the true variables *)

Lemma count_pattern c (v : Assignment) (pS pSub : pred string)
    (pD pP : pred nat) (pR : pred string) :
  count (fun k => v k && [&& pS (var_student k), pSub (var_subject k),
                             pD (var_day k), pP (var_period k)
                           & pR (var_room k)]) (x_loop c) =
  count v (nest (filter pS (students c)) (filter pSub (subjects c))
                (filter pD (day_indices c)) (filter pP (periods c))
                (filter pR (room_list c))).
Proof. by rewrite -filter_nest count_filter x_loopE. Qed.

Lemma filter_pred1_once (A : eqType) (l : seq A) (a : A) :
  count_mem a l = 1 -> filter (pred1 a) l = [:: a].
Proof. by rewrite filter_pred1_nseq => ->. Qed.

Section Slices.
Variables (c : Config) (m : CpModel) (v : Assignment).
Hypothesis build_ok : model c = Some m.
Hypothesis sat : satisfies m v.

Lemma hours_slice s subj :
  uniq (students c) -> uniq (subjects c) ->
  s \in students c -> subj \in subjects c ->
  count (fun k => [&& v k, var_student k == s & var_subject k == subj])
        (x_loop c) = count v (hours_scope c s subj).
Proof.
move=> uS uSub sS subjS.
have -> : count (fun k => [&& v k, var_student k == s & var_subject k == subj])
             (x_loop c) =
           count (fun k => v k && [&& pred1 s (var_student k),
                    pred1 subj (var_subject k), predT (var_day k),
                    predT (var_period k) & predT (var_room k)]) (x_loop c).
  by apply: eq_count => k /=; rewrite !andbT.
by rewrite count_pattern !filter_predT !filter_pred1_uniq // hours_scopeE.
Qed.

Lemma student_slice s d p :
  uniq (students c) ->
  s \in students c -> d \in day_indices c -> p \in periods c ->
  count (fun k => [&& v k, var_student k == s, var_day k == d
                      & var_period k == p]) (x_loop c) <= 1.
Proof.
move=> uS sS dD pP.
have -> : count (fun k => [&& v k, var_student k == s, var_day k == d
                      & var_period k == p]) (x_loop c) =
           count (fun k => v k && [&& pred1 s (var_student k),
                    predT (var_subject k), pred1 d (var_day k),
                    pred1 p (var_period k) & predT (var_room k)]) (x_loop c).
  by apply: eq_count => k /=; rewrite !andbT.
rewrite count_pattern !filter_predT !filter_pred1_uniq ?range_uniq //.
by rewrite -student_scopeE; apply: (student_holds build_ok sat).
Qed.

Lemma room_slice k :
  k \in x_loop c -> v k ->
  count (fun k' => [&& v k', var_room k' == var_room k,
                       var_day k' == var_day k
                     & var_period k' == var_period k]) (x_loop c) <= 1.
Proof.
move=> kx vk; have [_ r1] := true_var_listed_once build_ok sat kx vk.
move: kx; rewrite x_loopE mem_nest => /and5P [_ _ dD pP rR].
have -> : count (fun k' => [&& v k', var_room k' == var_room k,
                       var_day k' == var_day k
                     & var_period k' == var_period k]) (x_loop c) =
           count (fun k' => v k' && [&& predT (var_student k'),
                    predT (var_subject k'), pred1 (var_day k) (var_day k'),
                    pred1 (var_period k) (var_period k')
                  & pred1 (var_room k) (var_room k')]) (x_loop c).
  apply: eq_count => k' /=; case: (v k') => //=.
  by case: (var_room k' == _); case: (var_day k' == _);
     case: (var_period k' == _).
rewrite count_pattern !filter_predT (filter_pred1_uniq (range_uniq _) dD).
rewrite (filter_pred1_uniq (range_uniq _) pP) (filter_pred1_once r1).
rewrite -room_scopeE.
exact: (room_holds build_ok sat).
Qed.

Lemma subject_slice k :
  k \in x_loop c -> v k ->
  count (fun k' => [&& v k', var_subject k' == var_subject k,
                       var_day k' == var_day k
                     & var_period k' == var_period k]) (x_loop c) <= 1.
Proof.
move=> kx vk; have [subj1 _] := true_var_listed_once build_ok sat kx vk.
move: kx; rewrite x_loopE mem_nest => /and5P [_ subjS dD pP _].
have -> : count (fun k' => [&& v k', var_subject k' == var_subject k,
                       var_day k' == var_day k
                     & var_period k' == var_period k]) (x_loop c) =
           count (fun k' => v k' && [&& predT (var_student k'),
                    pred1 (var_subject k) (var_subject k'),
                    pred1 (var_day k) (var_day k'),
                    pred1 (var_period k) (var_period k')
                  & predT (var_room k')]) (x_loop c).
  by apply: eq_count => k' /=; rewrite andbT.
rewrite count_pattern !filter_predT (filter_pred1_uniq (range_uniq _) dD).
rewrite (filter_pred1_uniq (range_uniq _) pP) (filter_pred1_once subj1).
rewrite -teacher_scopeE.
exact: (teacher_holds build_ok sat).
Qed.


End Slices.

(** ** The objective *)

Lemma oforeach_in (A : eqType) (B : Type) (l : seq A)
    (body : A -> option (seq B)) (r : seq B) (a : A) :
  oforeach l body = Some r -> a \in l -> exists ys, body a = Some ys.
Proof.
move=> /oforeach_all /allP /[apply]; case: (body a) => // ys _.
by exists ys.
Qed.

Lemma penaltiesE c pen :
  penalties c = Some pen -> pen = [seq k <- x_loop c | off_room c k].
Proof.
move=> Ep; rewrite (oforeach_some Ep) x_loopE filter_nest_leaf.
apply: eq_in_foreach => s sS.
have [r1 Er1] := oforeach_in Ep sS; rewrite Er1 /= (oforeach_some Er1).
apply: eq_in_foreach => subj subjS; have [r2] := oforeach_in Er1 subjS.
rewrite /off_room /var_subject /var_room /=.
case: (dget (rooms c) subj) => // pref _ /=.
apply: eq_foreach => d; apply: eq_foreach => p; apply: eq_foreach => r.
by rewrite (eq_sym r) -[Some pref != Some r]/(pref != r).
Qed.

Lemma objective_count c m (v : Assignment) :
  model c = Some m ->
  objective_value m v = count (fun k => v k && off_room c k) (x_loop c).
Proof.
move=> build_ok; have [c1 [c5 [_ _ /penaltiesE Eobj _]]] := model_parts build_ok.
by rewrite /objective_value lin_valueE Eobj count_filter.
Qed.

(** ** The availability constraints are part of the model *)

Lemma t1_posted c m k :
  model c = Some m -> k \in x_loop c ->
  dget (teachers c) (var_subject k) = Some "T1" ->
  var_day k \notin allowed_days_t1 c ->
  Linear [:: k] EQ 0 \in constraints m.
Proof.
move=> build_ok; have [c1 [c5 [_ E5 _ ->]]] := model_parts build_ok.
case: k => [[[[s subj] d] p] r]; rewrite x_loopE mem_nest /var_subject /var_day.
move=> /and5P /= [sS subjS dD pP rR] Et dA; rewrite !mem_cat.
apply/or4P/Or44/orP; right; rewrite (oforeach_some E5).
apply/mem_foreach; exists s => //.
have [r1 Er1] := oforeach_in E5 sS; rewrite Er1 /= (oforeach_some Er1).
apply/mem_foreach; exists subj => //; rewrite Et /=.
apply/mem_foreach; exists d => //; rewrite dA.
apply/mem_foreach; exists p => //; apply/mem_foreach; exists r => //.
by rewrite mem_seq1.
Qed.

(** ** Every variable of the model is a key of [x] *)

Lemma mem_x c k : (k \in x c) = (k \in x_loop c).
Proof. by rewrite /x mem_undup. Qed.

Lemma nest_sub_x c S Sub D P R :
  {subset S <= students c} -> {subset Sub <= subjects c} ->
  {subset D <= day_indices c} -> {subset P <= periods c} ->
  {subset R <= room_list c} ->
  all [in x c] (nest S Sub D P R).
Proof.
move=> sS sSub sD sP sR; apply/allP => k; rewrite mem_x x_loopE !mem_nest.
by case/and5P=> /sS -> /sSub -> /sD -> /sP -> /sR ->.
Qed.

Lemma sub1 (A : eqType) (a : A) (l : seq A) : a \in l -> {subset [:: a] <= l}.
Proof. by move=> al b; rewrite mem_seq1 => /eqP ->. Qed.

(** The lookups [x[(s, subj, d, p, r)]] of the constraint loops and of the
    objective all find their key. *)
Lemma model_vars_in_x c m :
  model c = Some m ->
  all (fun ct => all [in x c] (scope ct)) (constraints m)
  /\ all [in x c] (objective m).
Proof.
move=> build_ok; have [c1 [c5 [E1 E5 Ep ->]]] := model_parts build_ok.
split; last first.
  rewrite (penaltiesE Ep); apply/allP => k.
  by rewrite mem_filter mem_x => /andP [].
rewrite !all_cat; apply/and5P; split.
- rewrite (oforeach_some E1) all_foreach; apply/allP => s sS.
  have [r1 Er1] := oforeach_in E1 sS; rewrite Er1 /= (oforeach_some Er1).
  rewrite all_foreach; apply/allP => subj subjS.
  case: (dget _ subj) => //= h; rewrite andbT hours_scopeE.
  by apply: nest_sub_x => //; apply: sub1.
- rewrite all_foreach; apply/allP => s sS; rewrite all_foreach.
  apply/allP => d dD; rewrite all_foreach; apply/allP => p pP /=.
  by rewrite andbT student_scopeE; apply: nest_sub_x => //; apply: sub1.
- rewrite all_foreach; apply/allP => r rR; rewrite all_foreach.
  apply/allP => d dD; rewrite all_foreach; apply/allP => p pP /=.
  by rewrite andbT room_scopeE; apply: nest_sub_x => //; apply: sub1.
- rewrite all_foreach; apply/allP => subj subjS; rewrite all_foreach.
  apply/allP => d dD; rewrite all_foreach; apply/allP => p pP /=.
  by rewrite andbT teacher_scopeE; apply: nest_sub_x => //; apply: sub1.
- rewrite (oforeach_some E5) all_foreach; apply/allP => s sS.
  have [r1 Er1] := oforeach_in E5 sS; rewrite Er1 /= (oforeach_some Er1).
  rewrite all_foreach; apply/allP => subj subjS.
  case: (dget _ subj) => //= t; case: (t == "T1") => //.
  rewrite all_foreach; apply/allP => d dD; case: (d \notin _) => //.
  rewrite all_foreach; apply/allP => p pP; rewrite all_foreach.
  apply/allP => r rR /=; rewrite !andbT mem_x x_loopE mem_nest /=.
  by rewrite sS subjS dD pP rR.
Qed.

(** * The claims about the model and its solutions *)

Lemma uniq_by_count (A B : eqType) (f : A -> B) (l : seq A) :
  (forall a, a \in l -> count (fun a' => f a' == f a) l <= 1) ->
  uniq [seq f a | a <- l].
Proof.
move=> le1; apply: uniq_count1 => y /mapP [a al ->]; rewrite count_map.
exact: le1.
Qed.

Section Accepted.
Variables (S : CpSolver) (c : Config) (m : CpModel).
Hypothesis build_ok : model c = Some m.

(** C2.  For an accepted answer and every pair of a student and a subject,
    the number of variables of [x] that are true for the pair, and the number
    of decoded entries of the pair, are both [subject_hours[subject]]. *)
Theorem quota_met (s subj : string) :
  accepted (Solve S m).1 ->
  uniq (students c) -> uniq (subjects c) ->
  s \in students c -> subj \in subjects c ->
  let v := (Solve S m).2 in
  exists2 h, dget (subject_hours c) subj = Some h
    & count (fun k => [&& v k, var_student k == s & var_subject k == subj])
            (x c) = h
      /\ count (fun e => (student_of e == s) && (subject_of e == subj))
               (entries c v) = h.
Proof.
move=> /Solve_sound sat uS uSub sS subjS v.
have [h Eh Ecount] := hours_holds build_ok sat sS subjS; exists h => //.
rewrite -Ecount -(@hours_slice c v _ _ uS uSub sS subjS); split.
  exact: (count_x build_ok sat uS
            (fun k => (var_student k == s) && (var_subject k == subj))).
exact: (count_entries c v
          (fun k => (var_student k == s) && (var_subject k == subj))).
Qed.

(** X16.  What constraints 2, 3 and 4 give.  In the decoded schedule of an
    accepted answer no two entries share (student, day, period), none share
    (room, day, period) and none share (subject, day, period); only when no
    two subjects have the same teacher does it follow that none share
    (teacher, day, period). *)
Theorem no_clash :
  accepted (Solve S m).1 -> uniq (students c) ->
  let es := entries c (Solve S m).2 in
  [/\ uniq [seq (student_of e, day_of e, period_of e) | e <- es],
      uniq [seq (room_of e, day_of e, period_of e) | e <- es],
      uniq [seq (subject_of e, day_of e, period_of e) | e <- es]
    & {in subjects c &, injective (dget (teachers c))} ->
      uniq [seq (dget (teachers c) (subject_of e), day_of e, period_of e)
           | e <- es]].
Proof.
move=> /Solve_sound sat uS; cbv zeta.
set v := (Solve S m).2 in sat *; set es := entries c v.
have inx e : e \in es -> (var_of e \in x_loop c) /\ v (var_of e).
  by rewrite mem_entries => /andP.
have subj_uniq :
    uniq [seq (subject_of e, day_of e, period_of e) | e <- es].
  apply: uniq_by_count => e /inx [kx vk].
  rewrite (@eq_count _ _ (fun e' =>
     [&& var_subject (var_of e') == var_subject (var_of e),
         var_day (var_of e') == var_day (var_of e)
       & var_period (var_of e') == var_period (var_of e)])) => [e' /=|];
    first by rewrite !xpair_eqE -andbA.
  rewrite (count_entries c v (fun k' =>
     [&& var_subject k' == var_subject (var_of e),
         var_day k' == var_day (var_of e)
       & var_period k' == var_period (var_of e)])).
  exact: (subject_slice build_ok sat kx vk).
split=> //.
- apply: uniq_by_count => e /inx [kx vk].
  rewrite (@eq_count _ _ (fun e' =>
     [&& var_student (var_of e') == var_student (var_of e),
         var_day (var_of e') == var_day (var_of e)
       & var_period (var_of e') == var_period (var_of e)])) => [e' /=|];
    first by rewrite !xpair_eqE -andbA.
  rewrite (count_entries c v (fun k' =>
     [&& var_student k' == var_student (var_of e),
         var_day k' == var_day (var_of e)
       & var_period k' == var_period (var_of e)])).
  move: kx; rewrite x_loopE mem_nest => /and5P [sS _ dD pP _].
  exact: (student_slice build_ok sat uS sS dD pP).
- apply: uniq_by_count => e /inx [kx vk].
  rewrite (@eq_count _ _ (fun e' =>
     [&& var_room (var_of e') == var_room (var_of e),
         var_day (var_of e') == var_day (var_of e)
       & var_period (var_of e') == var_period (var_of e)])) => [e' /=|];
    first by rewrite !xpair_eqE -andbA.
  rewrite (count_entries c v (fun k' =>
     [&& var_room k' == var_room (var_of e),
         var_day k' == var_day (var_of e)
       & var_period k' == var_period (var_of e)])).
  exact: (room_slice build_ok sat kx vk).
- move=> inj.
  rewrite -[X in uniq X]/(map (fun e => (fun y : string * nat * nat =>
            (dget (teachers c) y.1.1, y.1.2, y.2))
            (subject_of e, day_of e, period_of e)) es).
  rewrite (map_comp (fun y : string * nat * nat =>
             (dget (teachers c) y.1.1, y.1.2, y.2))) map_inj_in_uniq //.
  move=> y1 y2 /mapP [e1 /inx [k1x _] ->] /mapP [e2 /inx [k2x _] ->] /=.
  move: k1x k2x; rewrite x_loopE !mem_nest.
  move=> /and5P [_ s1 _ _ _] /and5P [_ s2 _ _ _] [/(inj _ _ s1 s2)].
  by rewrite /var_of /var_subject /= => -> -> ->.
Qed.

(** C4.  A variable of a subject taught by ["T1"] on a day outside
    [allowed_days_t1] has its own constraint [x == 0] in the model, so it is
    false in every assignment that satisfies the model; and the entries
    of an accepted answer for such subjects fall on allowed days. *)
Theorem t1_days_only :
  (forall k, k \in x c -> dget (teachers c) (var_subject k) = Some "T1" ->
     var_day k \notin allowed_days_t1 c ->
     Linear [:: k] EQ 0 \in constraints m
     /\ forall v, satisfies m v -> v k = false)
  /\ (accepted (Solve S m).1 ->
      forall e, e \in entries c (Solve S m).2 ->
        dget (teachers c) (subject_of e) = Some "T1" ->
        day_of e \in allowed_days_t1 c).
Proof.
have forced k v : k \in x_loop c -> satisfies m v ->
    dget (teachers c) (var_subject k) = Some "T1" ->
    var_day k \notin allowed_days_t1 c -> v k = false.
  case: k => [[[[s subj] d] p] r]; rewrite x_loopE mem_nest.
  move=> /and5P /= [sS subjS dD pP rR] sat Et dA.
  exact: (t1_holds build_ok sat sS subjS dD pP rR Et dA).
split=> [k|/Solve_sound sat e].
  rewrite /x mem_undup => kx Et dA; split; first exact: (t1_posted build_ok).
  by move=> v sat; apply: forced.
rewrite mem_entries => /andP [kx vk] Et.
case: (boolP (day_of e \in _)) => // dA.
by rewrite (forced _ _ kx sat Et dA) in vk.
Qed.

(** C5.  The objective of an accepted answer is the number of true variables
    whose room is not [rooms[subject]], which is also the number of decoded
    entries outside the preferred room; an [OPTIMAL] answer has the least
    such number among the assignments that satisfy the model. *)
Theorem penalty_count :
  accepted (Solve S m).1 -> uniq (students c) ->
  let v := (Solve S m).2 in
  [/\ objective_value m v = count (fun k => v k && off_room c k) (x c),
      objective_value m v =
        count (fun e => dget (rooms c) (subject_of e) != Some (room_of e))
              (entries c v)
    & (Solve S m).1 = OPTIMAL ->
      forall v', satisfies m v' ->
        count (fun k => v k && off_room c k) (x c)
        <= count (fun k => v' k && off_room c k) (x c)].
Proof.
move=> /Solve_sound sat uS v; split.
- by rewrite (objective_count _ build_ok) (count_x build_ok sat uS).
- by rewrite (objective_count _ build_ok) -(count_entries c v (off_room c)).
- move=> opt v' sat'; rewrite (count_x build_ok sat uS).
  rewrite (count_x build_ok sat' uS) -!(objective_count _ build_ok).
  exact: Solve_optimal.
Qed.

End Accepted.

(** * The decoder *)

Lemma entries_filter c v :
  entries c v = [seq e <- all_entries c | v (var_of e)].
Proof.
rewrite /entries /all_entries filter_foreach; apply: eq_foreach => s.
rewrite filter_foreach; apply: eq_foreach => d.
rewrite filter_foreach; apply: eq_foreach => p.
rewrite /slot_entries filter_foreach; apply: eq_foreach => subj.
by rewrite filter_foreach.
Qed.

Lemma mem_all_entries c e : (e \in all_entries c) = (var_of e \in x_loop c).
Proof.
have := mem_entries c xpredT e.
by rewrite entries_filter filter_predT andbT.
Qed.

(** C7.  The decoded list is the list of all keys, in the order students,
    days, periods (then subjects and rooms), restricted to the variables that
    are true; a slot without a true variable contributes no entry; and the
    list depends on nothing but the values of the variables of [x]. *)
Theorem decode_stable (c : Config) (v : Assignment) :
  [/\ entries c v = [seq e <- all_entries c | v (var_of e)],
      forall e, (e \in entries c v) = (var_of e \in x c) && v (var_of e),
      forall s d p, (forall subj r, v (s, subj, d, p, r) = false) ->
        (s, d, p) \notin
          [seq (student_of e, day_of e, period_of e) | e <- entries c v]
    & forall v', {in x c, v =1 v'} -> entries c v' = entries c v].
Proof.
split; first exact: entries_filter.
- by move=> e; rewrite mem_entries /x mem_undup.
- move=> s d p free; apply/mapP => -[[[[[s' d'] p'] subj] r]].
  rewrite mem_entries /var_of /student_of /day_of /period_of /subject_of
          /room_of /= => /andP [_ vk] [Es Ed Ep].
  by move: vk; rewrite -Es -Ed -Ep free.
- move=> v' agree; rewrite !entries_filter; apply: eq_in_filter => e.
  by rewrite mem_all_entries -mem_undup => /agree.
Qed.

(** * The run of the script *)




Lemma is_solve_prints (lines : seq string) :
  [seq ev <- [seq PrintLine line | line <- lines] | is_solve ev] = [::].
Proof. by elim: lines. Qed.

Lemma mainP (S : CpSolver) (c : Config) (run : Run) :
  main S c = Some run ->
  exists required m,
    [/\ required_A_lessons c = Some required, model c = Some m,
        status run = (Solve S m).1
      & trace run =
          [:: PrintLine "Quick sanity check:";
              PrintLine ("Required A lessons: " ++ str required)%string;
              PrintLine ("T1 capacity on allowed days: "
                     ++ str (t1_capacity c))%string;
              CallSolve m;
              PrintLine (LF ++ "Solver status: "
                     ++ status_name (Solve S m).1)%string]
          ++ if accepted (Solve S m).1 then
               [seq PrintLine line | line <- report c (Solve S m).2] ++
               [:: CallPlot (entries c (Solve S m).2) (students c) (days c)
                            (periods c) "scenario_b_gantt.png"]
             else [:: PrintLine "No feasible schedule found."]].
Proof.
rewrite /main; case: (required_A_lessons c) => // required.
case: (model c) => // m; case E: (Solve S m) => [st v] [<-].
by exists required, m; rewrite E; split; reflexivity.
Qed.


(** C1, as the script has it.  The quick sanity check computes
    [len(students) * subject_hours["A"]] and
    [len(periods) * len(allowed_days_t1)] and prints them; whatever the two
    numbers are, the solver is then called once, on the model built from the
    tables, and the status of the run is the one the solver returns. *)
Theorem sanity_check_only_prints (S : CpSolver) (c : Config) (run : Run) :
  main S c = Some run ->
  exists required m,
    [/\ required_A_lessons c = Some required /\ model c = Some m,
        take 3 (trace run) =
          [:: PrintLine "Quick sanity check:";
              PrintLine ("Required A lessons: " ++ str required)%string;
              PrintLine ("T1 capacity on allowed days: "
                     ++ str (t1_capacity c))%string],
        [seq ev <- trace run | is_solve ev] = [:: CallSolve m]
      & status run = (Solve S m).1].
Proof.
move=> /mainP [required [m [Er Em -> ->]]]; exists required, m; split=> //.
rewrite filter_cat /=; case: (accepted _) => //=.
by rewrite filter_cat is_solve_prints.
Qed.

(** * [plot_schedule] *)

Section DictFacts.
Variables (K : eqType) (V : Type).
Implicit Types (d items : dict K V) (k : K).

Lemma dset_new d k v : k \notin keys d -> dset d k v = rcons d (k, v).
Proof.
elim: d => [|[k' v'] d IH] //=; rewrite in_cons negb_or eq_sym.
by case: (k' == k) => //= /IH ->.
Qed.

Lemma foldl_dset d items :
  uniq (keys d ++ keys items) ->
  foldl (fun d kv => dset d kv.1 kv.2) d items = d ++ items.
Proof.
elim: items d => [|[k v] items IH] d /=; first by rewrite !cats0.
rewrite cat_uniq /= negb_or => /and3P [ud /andP [kd dis] /andP [ki ui]].
rewrite dset_new // IH -?cats1 -?catA //.
rewrite cat_uniq /keys map_cat cat_uniq ud /= orbF kd /= ui andbT.
apply/hasPn => k' k'i; rewrite mem_cat negb_or (hasPn dis) //= mem_seq1.
by apply: contraNneq ki => <-.
Qed.

(** A comprehension over items with distinct keys is the list of the items. *)
Lemma dict_of_uniq items : uniq (keys items) -> dict_of items = items.
Proof. by move=> ui; rewrite /dict_of foldl_dset. Qed.

End DictFacts.

(** [dget] in the items of an enumeration. *)
Lemma dget_enum (K : eqType) (V : Type) (f : nat -> V) (l : seq K) k i :
  dget [seq (ir.2, f ir.1) | ir <- zip (iota i (size l)) l] k =
  if k \in l then Some (f (i + index k l)) else None.
Proof.
elim: l i => [|a l IH] i //=; rewrite in_cons eq_sym.
by case: eqP => [_|_] /=; rewrite ?addn0 // IH addnS addSn.
Qed.

Lemma keys_enum (K : eqType) (V : Type) (f : nat -> V) (l : seq K) i :
  keys [seq (ir.2, f ir.1) | ir <- zip (iota i (size l)) l] = l.
Proof. by elim: l i => [|a l IH] i //=; rewrite -/(keys _) IH. Qed.

Lemma oforeach_total (A : eqType) (B : Type) (l : seq A)
    (body : A -> option (seq B)) :
  {in l, forall a, body a} -> oforeach l body.
Proof.
elim: l => [|a l IH] //= some; have := some a (mem_head _ _).
case: (body a) => // ys _.
have: oforeach l body by apply: IH => b bl; apply: some; rewrite in_cons bl orbT.
by case: (oforeach l body).
Qed.

Section PlotFacts.
Variables (Color : Type) (cmap : nat -> Color).
Variable entries : seq Entry.

Local Notation U := (unique_rooms entries).
Local Notation rc := (room_colors cmap entries).

Lemma unique_rooms_uniq : uniq U.
Proof. by rewrite /unique_rooms sort_uniq undup_uniq. Qed.

Lemma mem_unique_rooms r : (r \in U) = (r \in [seq room_of e | e <- entries]).
Proof. by rewrite /unique_rooms mem_sort mem_undup. Qed.

Lemma room_colorsE :
  rc = [seq (ir.2, cmap (ir.1 %% 10)) | ir <- enumerate U].
Proof.
rewrite /room_colors dict_of_uniq //.
by rewrite (keys_enum (fun i => cmap (i %% 10))) unique_rooms_uniq.
Qed.

Lemma dget_room_colors r :
  dget rc r = if r \in U then Some (cmap (index r U %% 10)) else None.
Proof.
by rewrite room_colorsE (dget_enum (fun i => cmap (i %% 10))) add0n.
Qed.

Lemma legend_handles_total : isSome (legend_handles cmap entries).
Proof.
apply: oforeach_total => r rU.
by rewrite dget_room_colors rU.
Qed.

End PlotFacts.

Section DictKeys.
Variables (K : eqType) (V : Type).
Implicit Types (d items : dict K V) (k : K).

Lemma mem_keys_dset d k v k' :
  (k' \in keys (dset d k v)) = (k' == k) || (k' \in keys d).
Proof.
rewrite /keys; elim: d => [|[k1 v1] d IH] /=; first by rewrite mem_seq1 in_nil orbF.
case: eqP => [->|_] /=; rewrite !in_cons ?IH; first by rewrite orbA orbb.
by rewrite orbCA.
Qed.

Lemma mem_keys_foldl d items :
  keys (foldl (fun d kv => dset d kv.1 kv.2) d items) =i keys d ++ keys items.
Proof.
elim: items d => [|[k1 v1] items IH] d k /=; first by rewrite cats0.
by rewrite IH !mem_cat mem_keys_dset in_cons orbCA orbA.
Qed.

Lemma mem_keys_dict_of items : keys (dict_of items) =i keys items.
Proof. by move=> k; rewrite /dict_of mem_keys_foldl. Qed.

Lemma dget_some d k : isSome (dget d k) = (k \in keys d).
Proof.
elim: d => [|[k1 v1] d IH] //=; rewrite in_cons [k == k1]eq_sym.
by case: (k1 == k).
Qed.

End DictKeys.

Section PlotTotal.
Variables (Color : Type) (cmap : nat -> Color).
Variables (entries : seq Entry) (students days : seq string).
Variables (periods : seq nat) (output_path : string).

Lemma mem_y_map s : (s \in keys (y_map students)) = (s \in students).
Proof.
rewrite /y_map mem_keys_dict_of /enumerate.
by rewrite (keys_enum y_of) /reversed_students mem_rev.
Qed.

Hypothesis known : {in entries, forall e, student_of e \in students}.

Lemma lesson_blocks_total :
  isSome (lesson_blocks cmap entries students periods).
Proof.
apply: oforeach_total => e ee; rewrite dget_room_colors mem_unique_rooms.
rewrite map_f //; have := known ee; rewrite -mem_y_map -dget_some.
by case: (dget _ _).
Qed.

End PlotTotal.

(** With every student of the entries in [students] every lookup of the
    function succeeds and it issues all of its calls; when there are entries
    these include the drawing calls and [savefig]. *)
Lemma plot_schedule_total (Color : Type) (cmap : nat -> Color)
    (entries : seq Entry) (students days : seq string) (periods : seq nat)
    (output_path : string) :
  {in entries, forall e, student_of e \in students} ->
  exists2 out,
    plot_schedule cmap entries students days periods output_path = Some out
    & has (@persists Color) out = (entries != [::])
      /\ has (@draws Color) out = (entries != [::]).
Proof.
rewrite /plot_schedule; case: entries => [|e es] known.
  by exists [:: Say Color "No entries to plot."].
have := lesson_blocks_total cmap periods known.
case: (lesson_blocks _ _ _ _) => // blocks _.
have: student_of e \in keys (y_map students).
  by rewrite mem_y_map; apply: known; rewrite mem_head.
rewrite /top_y; case: (y_map students) => [|[k y] d] // _.
rewrite [values _]/=.
have := legend_handles_total cmap (e :: es).
case: (legend_handles _ _) => // handles _.
eexists; first by [].
by split; rewrite !has_cat /= ?orbT.
Qed.

(** * The claims about [plot_schedule] *)

(** C8.  Called with an empty list of entries, [plot_schedule] prints one
    line and returns: it issues no drawing call and saves no file, whatever
    the other arguments are. *)
Theorem plot_schedule_no_entries (Color : Type) (cmap : nat -> Color)
    (students days : seq string) (periods : seq nat) (output_path : string) :
  exists2 out,
    plot_schedule cmap [::] students days periods output_path = Some out
    & [/\ out = [:: Say Color "No entries to plot."],
          ~~ has (@draws Color) out & ~~ has (@persists Color) out].
Proof. by exists [:: Say Color "No entries to plot."]. Qed.

(** C9.  The keys of [room_colors] are the rooms that occur in the entries,
    so the lookup [room_colors[room]] made for an entry is defined: it is
    the colour at the room's rank among the sorted rooms, modulo 10. *)
Theorem room_color_lookup_total (Color : Type) (cmap : nat -> Color)
    (entries : seq Entry) :
  keys (room_colors cmap entries) =i [seq room_of e | e <- entries]
  /\ forall e, e \in entries ->
       dget (room_colors cmap entries) (room_of e) =
       Some (cmap (index (room_of e) (unique_rooms entries) %% 10)).
Proof.
split=> [r|e ee].
  by rewrite -dget_some dget_room_colors mem_unique_rooms; case: (r \in _).
by rewrite dget_room_colors mem_unique_rooms map_f.
Qed.

Lemma size_unique_rooms (entries : seq Entry) :
  size (unique_rooms entries) = size (undup [seq room_of e | e <- entries]).
Proof. by rewrite /unique_rooms size_sort. Qed.

(** C10.  Colours are given by rank modulo 10.  Two entries whose rooms have
    ranks congruent modulo 10 in the sorted list of rooms both receive a
    colour, and the same one; so with more than 10 distinct rooms in the
    entries two entries with different rooms receive the same colour.  With
    at most 10 distinct rooms and 10 distinct colours in the palette,
    different rooms receive different colours. *)
Theorem palette_cycles (Color : Type) (cmap : nat -> Color)
    (entries : seq Entry) :
  let rank := fun e => index (room_of e) (unique_rooms entries) in
  let colour := fun e => dget (room_colors cmap entries) (room_of e) in
  [/\ forall e1 e2, e1 \in entries -> e2 \in entries ->
        rank e1 = rank e2 %[mod 10] ->
        colour e1 = Some (cmap (rank e1 %% 10)) /\ colour e2 = colour e1,
      10 < size (undup [seq room_of e | e <- entries]) ->
        exists e1 e2 col,
          [/\ e1 \in entries, e2 \in entries, room_of e1 != room_of e2,
              colour e1 = Some col & colour e2 = Some col]
    & {in gtn 10 &, injective cmap} ->
      size (undup [seq room_of e | e <- entries]) <= 10 ->
      forall e1 e2, e1 \in entries -> e2 \in entries ->
        exists col1 col2,
          [/\ colour e1 = Some col1, colour e2 = Some col2
            & col1 = col2 -> room_of e1 = room_of e2]].
Proof.
move=> rank colour; have uU := unique_rooms_uniq entries.
have inU e : e \in entries -> room_of e \in unique_rooms entries.
  by move=> ee; rewrite mem_unique_rooms map_f.
have at_rank e : e \in entries -> colour e = Some (cmap (rank e %% 10)).
  by move=> /inU rU; rewrite /colour dget_room_colors rU.
split=> [e1 e2 e1e e2e eqm|gt10|cinj le10 e1 e2 e1e e2e].
- by rewrite !at_rank // eqm.
- rewrite -size_unique_rooms in gt10.
  have lt0 : 0 < size (unique_rooms entries) by apply: leq_trans gt10.
  have := mem_nth "" lt0; have := mem_nth "" gt10.
  rewrite !mem_unique_rooms => /mapP [e2 e2e E2] /mapP [e1 e1e E1].
  exists e1, e2, (cmap 0); split=> //.
  + by rewrite -E1 -E2 nth_uniq.
  + by rewrite at_rank // /rank -E1 index_uniq.
  + by rewrite at_rank // /rank -E2 index_uniq.
- rewrite -size_unique_rooms in le10.
  exists (cmap (rank e1 %% 10)), (cmap (rank e2 %% 10)).
  split; [exact: at_rank | exact: at_rank |].
  have lt1 : rank e1 < 10 by apply: leq_trans le10; rewrite index_mem inU.
  have lt2 : rank e2 < 10 by apply: leq_trans le10; rewrite index_mem inU.
  rewrite !modn_small // => /cinj; rewrite !inE => /(_ lt1 lt2) eqi.
  by rewrite -(nth_index "" (inU _ e1e)) -/(rank e1) eqi nth_index ?inU.
Qed.

(** * The claims on the shipped tables, and where the spec departs *)

(** The shipped tables build a model. *)
Lemma model_b_ok : model scenario_b = Some model_b.
Proof. by vm_compute. Qed.

(** [timetable_b] satisfies it with objective 0. *)
Lemma solver_b_optimal : (Solve solver_b model_b).1 = OPTIMAL.
Proof. by vm_compute. Qed.

(** C2 on the shipped tables: student ["S1"] and subject ["C"]. *)
Lemma quota_met_scenario_b :
  exists2 h, dget (subject_hours scenario_b) "C" = Some h
    & count (fun k => [&& (Solve solver_b model_b).2 k, var_student k == "S1"
                        & var_subject k == "C"]) (x scenario_b) = h
      /\ count (fun e => (student_of e == "S1") && (subject_of e == "C"))
               (entries scenario_b (Solve solver_b model_b).2) = h.
Proof.
apply: (@quota_met solver_b scenario_b model_b model_b_ok "S1" "C");
  by vm_compute.
Defined.

(** The run of the script on the shipped tables with [solver_b]. *)
Lemma run_b_ok : main solver_b scenario_b = Some run_b.
Proof. by vm_compute. Qed.

(** In the shipped tables every subject has a teacher of its own. *)
Lemma teachers_b_injective :
  {in subjects scenario_b &, injective (dget (teachers scenario_b))}.
Proof.
move=> s1 s2; rewrite !inE.
by do 4?[case/orP => [/eqP ->|]]; try move/eqP->;
   do 4?[case/orP => [/eqP ->|]]; try move/eqP->.
Qed.

(** X16 on the shipped tables, where every subject has a teacher of its own. *)
Lemma no_clash_scenario_b :
  let es := entries scenario_b (Solve solver_b model_b).2 in
  [/\ uniq [seq (student_of e, day_of e, period_of e) | e <- es],
      uniq [seq (room_of e, day_of e, period_of e) | e <- es],
      uniq [seq (subject_of e, day_of e, period_of e) | e <- es]
    & uniq [seq (dget (teachers scenario_b) (subject_of e), day_of e,
                 period_of e) | e <- es]].
Proof.
have acc : accepted (Solve solver_b model_b).1 by vm_compute.
have uS : uniq (students scenario_b) by vm_compute.
have [u1 u2 u3 u4] := no_clash model_b_ok acc uS.
exact (And4 u1 u2 u3 (u4 teachers_b_injective)).
Defined.

(** C4 on the shipped tables: a Monday variable of subject ["A"] is forced
    to 0, and the Tuesday lesson of ["S1"] is on an allowed day. *)
Lemma t1_days_only_scenario_b :
  (Linear [:: ("S1", "A", 0, 0, "Room_A")] EQ 0 \in constraints model_b
   /\ forall v, satisfies model_b v -> v ("S1", "A", 0, 0, "Room_A") = false)
  /\ day_of ("S1", 1, 0, "A", "Room_A") \in allowed_days_t1 scenario_b.
Proof.
have [forced allowed] := @t1_days_only solver_b scenario_b model_b model_b_ok.
split; first by apply: forced; vm_compute.
by apply: allowed; vm_compute.
Defined.

(** C5 on the shipped tables; [solver_b] answers [OPTIMAL]. *)
Lemma penalty_count_scenario_b :
  let v := (Solve solver_b model_b).2 in
  [/\ objective_value model_b v =
        count (fun k => v k && off_room scenario_b k) (x scenario_b),
      objective_value model_b v =
        count (fun e => dget (rooms scenario_b) (subject_of e)
                        != Some (room_of e)) (entries scenario_b v)
    & forall v', satisfies model_b v' ->
        count (fun k => v k && off_room scenario_b k) (x scenario_b)
        <= count (fun k => v' k && off_room scenario_b k) (x scenario_b)].
Proof.
have acc : accepted (Solve solver_b model_b).1 by vm_compute.
have uS : uniq (students scenario_b) by vm_compute.
have [o1 o2 o3] := penalty_count model_b_ok acc uS.
exact (And3 o1 o2 (o3 solver_b_optimal)).
Defined.


(** C1, as the script has it, on the run with the shipped tables. *)
Lemma sanity_check_scenario_b :
  exists required m,
    [/\ required_A_lessons scenario_b = Some required
        /\ model scenario_b = Some m,
        take 3 (trace run_b) =
          [:: PrintLine "Quick sanity check:";
              PrintLine ("Required A lessons: " ++ str required)%string;
              PrintLine ("T1 capacity on allowed days: "
                     ++ str (t1_capacity scenario_b))%string],
        [seq ev <- trace run_b | is_solve ev] = [:: CallSolve m]
      & status run_b = (Solve solver_b m).1].
Proof. exact (sanity_check_only_prints run_b_ok). Defined.

(** C7 on the shipped tables and [timetable_b]. *)
Lemma decode_stable_scenario_b :
  let c := scenario_b in
  let v := true_on timetable_b in
  [/\ entries c v = [seq e <- all_entries c | v (var_of e)],
      forall e, (e \in entries c v) = (var_of e \in x c) && v (var_of e),
      forall s d p, (forall subj r, v (s, subj, d, p, r) = false) ->
        (s, d, p) \notin
          [seq (student_of e, day_of e, period_of e) | e <- entries c v]
    & forall v', {in x c, v =1 v'} -> entries c v' = entries c v].
Proof. exact (decode_stable scenario_b (true_on timetable_b)). Defined.

(** C9 with eleven rooms: ["R10"] is third in string order. *)
Lemma room_color_lookup_eleven_rooms :
  dget (room_colors palette_index eleven_rooms) "R10" = Some 2.
Proof.
have [_ total] := room_color_lookup_total palette_index eleven_rooms.
have mem : ("S1", 0, 10, "A", "R10") \in eleven_rooms by vm_compute.
exact (total _ mem).
Defined.

(** C10 with eleven rooms: the first and the eleventh room in string order,
    ["R0"] and ["R9"], both receive colour 0. *)
Lemma palette_cycles_eleven_rooms :
  (dget (room_colors palette_index eleven_rooms) "R0" = Some 0
   /\ dget (room_colors palette_index eleven_rooms) "R9" = Some 0)
  /\ exists e1 e2 col,
       [/\ e1 \in eleven_rooms, e2 \in eleven_rooms, room_of e1 != room_of e2,
           dget (room_colors palette_index eleven_rooms) (room_of e1) = Some col
         & dget (room_colors palette_index eleven_rooms) (room_of e2)
           = Some col].
Proof.
have [cycle shared _] := palette_cycles palette_index eleven_rooms.
have m0 : ("S1", 0, 0, "A", "R0") \in eleven_rooms by vm_compute.
have m9 : ("S1", 0, 9, "A", "R9") \in eleven_rooms by vm_compute.
have cong : index (room_of ("S1", 0, 0, "A", "R0")) (unique_rooms eleven_rooms)
            = index (room_of ("S1", 0, 9, "A", "R9"))
                    (unique_rooms eleven_rooms) %[mod 10] by vm_compute.
have gt10 : 10 < size (undup [seq room_of e | e <- eleven_rooms]).
  by vm_compute.
have [E0 E9] := cycle _ _ m0 m9 cong.
exact (conj (conj E0 (etrans E9 E0)) (shared gt10)).
Defined.

(** The model of [t1_unavailable] has no solution: each student needs one
    lesson of ["A"] and every variable of ["A"] is forced to 0. *)
Lemma t1_unavailable_unsat m v :
  model t1_unavailable = Some m -> ~~ satisfies m v.
Proof.
vm_compute model => -[<-]; rewrite /satisfies /= /holds /= /lin_value /=.
by do 2!case: (v _).
Qed.

(** C1, as the spec states it, fails: with more required lessons than ["T1"]
    has slots, every solver is still called on the model; the run draws no
    chart because the solver cannot accept, and its status is the solver's,
    for instance [UNKNOWN] from a solver that gives up. *)
Lemma sanity_check_does_not_gate :
  [/\ spec_overloaded t1_unavailable,
      required_A_lessons t1_unavailable = Some 2
      /\ t1_capacity t1_unavailable = 0,
      forall S : CpSolver, exists2 run,
        main S t1_unavailable = Some run
        & [/\ has is_solve (trace run), ~~ has is_plot (trace run)
            & status run \in [:: INFEASIBLE; UNKNOWN; MODEL_INVALID]]
    & exists2 run, main (hint_solver (true_on [::])) t1_unavailable = Some run
        & status run = UNKNOWN /\ has is_solve (trace run)].
Proof.
split=> //; last by eexists; first by vm_compute.
move=> S; rewrite /main.
have -> : required_A_lessons t1_unavailable = Some 2 by [].
case Em: (model t1_unavailable) => [m|]; last by move: Em; vm_compute.
have := @Solve_sound S m; case: (Solve S m) => st v /= sound.
have nacc : ~~ accepted st.
  by apply/negP => /sound; apply/negP; apply: t1_unavailable_unsat.
eexists; first by [].
by rewrite /= (negbTE nacc) /=; case: st nacc {sound}.
Qed.

(** * Further properties of the model *)

(** ** Regrouping the loop over the variables *)

Lemma count_foreach_le (A B : Type) (P : pred B) (l : seq A)
    (body : A -> seq B) (bnd : A -> nat) :
  (forall a, count P (body a) <= bnd a) ->
  count P (foreach l body) <= sumn [seq bnd a | a <- l].
Proof.
move=> le; rewrite count_foreach.
by elim: l => [|a l IH] //=; apply: leq_add.
Qed.

Lemma sumn_const (A : Type) (l : seq A) n : sumn [seq n | _ <- l] = size l * n.
Proof. by elim: l => [|a l IH] //=; rewrite IH mulSn. Qed.

Lemma sumn_le (A : eqType) (f g : A -> nat) (l : seq A) :
  {in l, forall a, f a <= g a} ->
  sumn [seq f a | a <- l] <= sumn [seq g a | a <- l].
Proof.
elim: l => [|a l IH] //= le; apply: leq_add; first by rewrite le ?mem_head.
by apply: IH => b bl; rewrite le // in_cons bl orbT.
Qed.

Lemma eq_in_sumn (A : eqType) (f g : A -> nat) (l : seq A) :
  {in l, f =1 g} -> sumn [seq f a | a <- l] = sumn [seq g a | a <- l].
Proof. by move=> fg; congr sumn; apply/eq_in_map. Qed.

(** The variables of one student, grouped by slot. *)
Lemma student_week_perm c s :
  perm_eq (foreach (subjects c) (fun subj => hours_scope c s subj))
          (foreach (day_indices c) (fun d => foreach (periods c) (fun p =>
             student_scope c s d p))).
Proof.
rewrite /hours_scope /student_scope.
apply: perm_trans (perm_foreach_swap _ _ _) _.
by apply: perm_foreach => d; apply: perm_foreach_swap.
Qed.

(** The variables of one subject, grouped by slot. *)
Lemma subject_week_perm c subj :
  perm_eq (foreach (students c) (fun s => hours_scope c s subj))
          (foreach (day_indices c) (fun d => foreach (periods c) (fun p =>
             teacher_scope c subj d p))).
Proof.
rewrite /hours_scope /teacher_scope.
apply: perm_trans (perm_foreach_swap _ _ _) _.
by apply: perm_foreach => d; apply: perm_foreach_swap.
Qed.

Lemma size_entries c v : size (entries c v) = count v (x_loop c).
Proof.
by rewrite -(size_map var_of) (perm_size (entries_perm c v)) size_filter.
Qed.

Section Necessary.
Variables (c : Config) (m : CpModel) (v : Assignment).
Hypothesis build_ok : model c = Some m.
Hypothesis sat : satisfies m v.

Lemma hours_count s subj :
  s \in students c -> subj \in subjects c ->
  count v (hours_scope c s subj) = odflt 0 (dget (subject_hours c) subj).
Proof.
by move=> sS subjS; have [h -> <-] := hours_holds build_ok sat sS subjS.
Qed.

Lemma total_lessons :
  count v (x_loop c) =
  size (students c) *
  sumn [seq odflt 0 (dget (subject_hours c) subj) | subj <- subjects c].
Proof.
rewrite -[x_loop c]/(foreach (students c) (fun s =>
           foreach (subjects c) (fun subj => hours_scope c s subj))).
rewrite count_foreach -sumn_const; apply: eq_in_sumn => s sS.
by rewrite count_foreach; apply: eq_in_sumn => subj subjS; apply: hours_count.
Qed.

Lemma student_week s :
  s \in students c ->
  sumn [seq odflt 0 (dget (subject_hours c) subj) | subj <- subjects c]
  <= size (days c) * n_periods c.
Proof.
move=> sS.
have <- : sumn [seq count v (hours_scope c s subj) | subj <- subjects c] =
          sumn [seq odflt 0 (dget (subject_hours c) subj) | subj <- subjects c].
  by apply: eq_in_sumn => subj subjS; apply: hours_count.
rewrite -count_foreach (permP (student_week_perm c s)).
have -> : size (days c) * n_periods c =
          sumn [seq sumn [seq 1 | _ <- periods c] | _ <- day_indices c].
  by rewrite !sumn_const muln1 /day_indices /periods /range !size_iota.
rewrite count_foreach; apply: sumn_le => d dD.
rewrite count_foreach; apply: sumn_le => p pP.
exact: (student_holds build_ok sat).
Qed.

(** The lessons of a subject are at most one per slot, and none on a day
    that its teacher ["T1"] does not work. *)
Lemma t1_subject_week subj :
  subj \in subjects c -> dget (teachers c) subj = Some "T1" ->
  size (students c) * odflt 0 (dget (subject_hours c) subj)
  <= size (periods c) * size (allowed_days_t1 c).
Proof.
move=> subjS Et; rewrite -sumn_const.
have -> : sumn [seq odflt 0 (dget (subject_hours c) subj) | _ <- students c] =
          sumn [seq count v (hours_scope c s subj) | s <- students c].
  by apply: eq_in_sumn => s sS; rewrite hours_count.
rewrite -count_foreach (permP (subject_week_perm c subj)) count_foreach.
have bound d : d \in day_indices c ->
    count v (foreach (periods c) (fun p => teacher_scope c subj d p))
    <= (d \in allowed_days_t1 c) * size (periods c).
  move=> dD; rewrite count_foreach.
  case: (boolP (d \in _)) => [_|dA].
    rewrite mul1n -[size _]muln1 -sumn_const; apply: sumn_le => p pP.
    exact: (teacher_holds build_ok sat).
  have -> : sumn [seq count v (teacher_scope c subj d p) | p <- periods c] =
            sumn [seq 0 | _ <- periods c]; last by rewrite sumn_const muln0.
  apply: eq_in_sumn => p pP; apply/eqP; rewrite -leqn0 leqNgt -has_count.
  rewrite -all_predC.
  rewrite teacher_scopeE; apply/allP => -[[[[s' subj'] d'] p'] r'].
  rewrite mem_nest /var_student /var_subject /var_day /var_period /var_room.
  rewrite /= !mem_seq1 => /and5P [sS /eqP -> /eqP -> /eqP -> rR].
  by rewrite (t1_holds build_ok sat sS subjS dD pP rR Et dA).
apply: leq_trans (sumn_le bound) _.
rewrite -[X in X <= _]/(sumn [seq (fun d => (d \in allowed_days_t1 c)
                                   * size (periods c)) d | d <- day_indices c]).
have -> : sumn [seq (d \in allowed_days_t1 c) * size (periods c)
               | d <- day_indices c] =
          count [in allowed_days_t1 c] (day_indices c) * size (periods c).
  by elim: (day_indices c) => [|d l IH] //=; rewrite IH mulnDl.
rewrite mulnC leq_mul2l -size_filter uniq_leq_size ?orbT //.
  by rewrite filter_uniq // range_uniq.
by move=> d; rewrite mem_filter => /andP [].
Qed.

End Necessary.

(** ** Necessary conditions for an accepted answer *)

(** X1.  The quick sanity check is a sound test: when subject ["A"] is in
    the tables and taught by ["T1"], an accepted answer exists only if the
    printed number of required lessons is at most the printed capacity. *)
Theorem sanity_check_is_necessary (S : CpSolver) (c : Config) (m : CpModel)
    (required : nat) :
  model c = Some m -> accepted (Solve S m).1 ->
  "A" \in subjects c -> dget (teachers c) "A" = Some "T1" ->
  required_A_lessons c = Some required ->
  required <= t1_capacity c.
Proof.
move=> build_ok /Solve_sound sat Asub At.
have := t1_subject_week build_ok sat Asub At.
rewrite /required_A_lessons /t1_capacity.
by case: (dget (subject_hours c) "A") => //= h le [<-].
Qed.

(** X2.  The decoded schedule of an accepted answer has one entry per
    required lesson: the number of students times the sum of the quotas of
    the listed subjects. *)
Theorem total_entries (S : CpSolver) (c : Config) (m : CpModel) :
  model c = Some m -> accepted (Solve S m).1 ->
  size (entries c (Solve S m).2) =
  size (students c) *
  sumn [seq odflt 0 (dget (subject_hours c) subj) | subj <- subjects c].
Proof.
move=> build_ok /Solve_sound sat.
by rewrite size_entries (total_lessons build_ok sat).
Qed.

(** X3.  An accepted answer exists only if the quotas of the listed subjects
    fit in the week of a student: their sum is at most the number of days
    times the number of periods. *)
Theorem week_holds_all_quotas (S : CpSolver) (c : Config) (m : CpModel) :
  model c = Some m -> accepted (Solve S m).1 -> students c != [::] ->
  sumn [seq odflt 0 (dget (subject_hours c) subj) | subj <- subjects c]
  <= size (days c) * n_periods c.
Proof.
move=> build_ok /Solve_sound sat; case Es: (students c) => [|s l] // _.
by apply: (student_week build_ok sat (s := s)); rewrite Es mem_head.
Qed.

(** ** The printed report *)

Lemma size_slot_entries c v s d p :
  size (slot_entries c v s d p) = count v (student_scope c s d p).
Proof.
rewrite -count_predT /slot_entries /student_scope !count_foreach.
congr sumn; apply: eq_map => subj; rewrite !count_foreach.
by congr sumn; apply: eq_map => r /=; case: (v _).
Qed.

(** X4.  For an accepted answer the report has, after the heading of each
    student, exactly one line per day and period: the lesson of the slot, or
    the line of a free slot. *)
Theorem report_one_line_per_slot (S : CpSolver) (c : Config) (m : CpModel) :
  model c = Some m -> accepted (Solve S m).1 ->
  let v := (Solve S m).2 in
  report c v =
    foreach (students c) (fun s =>
      (LF ++ "Schedule for " ++ s)%string ::
      foreach (day_indices c) (fun d =>
      foreach (periods c) (fun p => [:: slot_line c v s d p])))
  /\ size (report c v) = size (students c) * (1 + size (days c) * n_periods c).
Proof.
move=> build_ok /Solve_sound sat v.
have one : report c v =
    foreach (students c) (fun s =>
      (LF ++ "Schedule for " ++ s)%string ::
      foreach (day_indices c) (fun d =>
      foreach (periods c) (fun p => [:: slot_line c v s d p]))).
  apply: eq_in_foreach => s sS; congr cons.
  apply: eq_in_foreach => d dD; apply: eq_in_foreach => p pP.
  have := student_holds build_ok sat sS dD pP.
  rewrite -size_slot_entries /slot_line.
  by case: (slot_entries c v s d p) => [|e [|e' l]].
split=> //; rewrite one.
rewrite (@size_foreach_const _ _ _ _ (1 + size (days c) * n_periods c)) //.
move=> s /=; rewrite add1n; congr _.+1.
rewrite (@size_foreach_const _ _ _ _ (n_periods c)) ?size_iota // => d.
by rewrite (@size_foreach_const _ _ _ _ 1) ?size_iota ?muln1.
Qed.

(** ** Missing keys *)

Lemma oforeach_isSome (A B : Type) (l : seq A) (body : A -> option (seq B)) :
  isSome (oforeach l body) = all (fun a => isSome (body a)) l.
Proof.
elim: l => [|a l IH] //=; case: (body a) => //= ys.
by rewrite -IH; case: (oforeach l body).
Qed.

Lemma all_const (A : Type) (l : seq A) (b : bool) :
  all (fun=> b) l = (size l == 0) || b.
Proof. by case: b; [rewrite all_predT orbT | case: l]. Qed.

Lemma model_isSome (c : Config) :
  isSome (model c) =
    ("A" \in keys (subject_hours c))
    && ((size (students c) == 0)
        || all (fun subj => [&& subj \in keys (subject_hours c),
                                subj \in keys (teachers c)
                              & subj \in keys (rooms c)]) (subjects c)).
Proof.
have -> : isSome (model c) =
    [&& isSome (required_A_lessons c), isSome (hours_constraints c),
        isSome (t1_constraints c) & isSome (penalties c)].
  rewrite /model; case: (required_A_lessons c) => // req.
  case: (hours_constraints c) => // c1; case: (t1_constraints c) => //= c5.
  by case: (penalties c).
have -> : isSome (required_A_lessons c) = ("A" \in keys (subject_hours c)).
  by rewrite /required_A_lessons -dget_some; case: (dget _ _).
have nest_some (B : Type) (f : string -> string -> option (seq B))
    (g : pred string) :
    (forall s subj, isSome (f s subj) = g subj) ->
    isSome (oforeach (students c) (fun s => oforeach (subjects c) (f s))) =
    (size (students c) == 0) || all g (subjects c).
  move=> fg; rewrite oforeach_isSome -all_const; apply: eq_all => s.
  by rewrite oforeach_isSome; apply: eq_all => subj; rewrite fg.
have -> : isSome (hours_constraints c) =
    (size (students c) == 0)
    || all (fun subj => subj \in keys (subject_hours c)) (subjects c).
  by apply: nest_some => s subj; rewrite -dget_some; case: (dget _ _).
have -> : isSome (t1_constraints c) =
    (size (students c) == 0)
    || all (fun subj => subj \in keys (teachers c)) (subjects c).
  by apply: nest_some => s subj; rewrite -dget_some; case: (dget _ _).
have -> : isSome (penalties c) =
    (size (students c) == 0)
    || all (fun subj => subj \in keys (rooms c)) (subjects c).
  by apply: nest_some => s subj; rewrite -dget_some; case: (dget _ _).
congr andb; case: (size (students c) == 0) => //=.
by rewrite -!all_predI.
Qed.

(** X5.  A missing table entry makes the script raise while it builds the
    model: when ["A"] has no quota, or when there is a student and some
    listed subject has no quota, no teacher or no room, building the model
    raises, and so does the script, whatever the solver. *)
Theorem missing_key_raises (S : CpSolver) (c : Config) :
  ("A" \notin keys (subject_hours c))
  || (students c != [::])
     && has (fun subj => [|| subj \notin keys (subject_hours c),
                             subj \notin keys (teachers c)
                           | subj \notin keys (rooms c)]) (subjects c) ->
  model c = None /\ main S c = None.
Proof.
move=> missing.
have Em : model c = None.
  have := model_isSome c; case: (model c) => // m /esym /andP [inA].
  move: missing; rewrite inA /= -size_eq0 => /andP [/negbTE -> /=].
  case/hasP => subj subjS bad /(allP) /(_ _ subjS) /and3P [in1 in2 in3].
  by move: bad; rewrite in1 in2 in3.
by split=> //; rewrite /main Em; case: (required_A_lessons c).
Qed.

(** ** The variables of [x] *)

Lemma x_loop_uniq c :
  uniq (students c) -> uniq (subjects c) -> uniq (room_list c) ->
  uniq (x_loop c).
Proof.
move=> uS uSub uR; apply: uniq_count1 => k.
rewrite x_loopE mem_nest count_nest => /and5P [sS subjS dD pP rR].
by rewrite !count_uniq_mem ?range_uniq // sS subjS dD pP rR.
Qed.

(** X6.  When no student, subject or room is listed twice, every variable
    created by [NewBoolVar] is held in [x]: the dict has one key per
    combination of student, subject, day, period and room. *)
Theorem x_holds_every_variable (c : Config) :
  uniq (students c) -> uniq (subjects c) -> uniq (room_list c) ->
  x c = x_loop c
  /\ size (x c) =
     size (students c) * (size (subjects c) *
       (size (days c) * (n_periods c * size (rooms c)))).
Proof.
move=> uS uSub uR; have -> : x c = x_loop c.
  by rewrite /x undup_id // x_loop_uniq.
by rewrite x_loopE size_nest /day_indices /periods /range !size_iota
           /room_list /values size_map.
Qed.

(** * Further properties of [plot_schedule] *)

(** ** Unknown students *)

Lemma lesson_blocks_isSome (Color : Type) (cmap : nat -> Color)
    (entries : seq Entry) (students : seq string) (periods : seq nat) :
  isSome (lesson_blocks cmap entries students periods) =
  all (fun e => student_of e \in students) entries.
Proof.
rewrite /lesson_blocks oforeach_isSome; apply: eq_in_all => e ee.
rewrite dget_room_colors mem_unique_rooms map_f //=.
by rewrite -mem_y_map -dget_some; case: (dget _ _).
Qed.

(** X7.  When some entry names a student that is not in [students],
    [plot_schedule] raises, at [y_map[student]], instead of returning,
    whatever its other arguments are. *)
Theorem plot_schedule_unknown_student (Color : Type) (cmap : nat -> Color)
    (entries : seq Entry) (students days : seq string) (periods : seq nat)
    (output_path : string) :
  has (fun e => student_of e \notin students) entries ->
  plot_schedule cmap entries students days periods output_path = None.
Proof.
move=> unknown.
have : ~~ isSome (lesson_blocks cmap entries students periods).
  by rewrite lesson_blocks_isSome -has_predC.
rewrite /plot_schedule; case: entries unknown => [|e es] // _.
by case: (lesson_blocks _ _ _ _).
Qed.

(** ** The lesson blocks *)

Lemma foreach_seq1 (A B : Type) (l : seq A) (f : A -> B) :
  foreach l (fun a => [:: f a]) = [seq f a | a <- l].
Proof. by elim: l => [|a l IH]; rewrite ?foreach0 // foreach_cons IH. Qed.

Lemma filter_map_none (A B : Type) (P : pred B) (f : A -> B) (l : seq A) :
  (forall a, P (f a) = false) -> [seq b <- [seq f a | a <- l] | P b] = [::].
Proof. by move=> nP; elim: l => [|a l IH] //=; rewrite nP. Qed.

(** X8.  When [plot_schedule] returns, it has drawn one block per entry, in
    the order of the entries: at [start], of width 1, on the row of the
    entry's student, in the colour at the rank of the entry's room among the
    sorted rooms, modulo 10. *)
Theorem one_block_per_entry (Color : Type) (cmap : nat -> Color)
    (entries : seq Entry) (students days : seq string) (periods : seq nat)
    (output_path : string) (out : seq (PlotCmd Color)) :
  plot_schedule cmap entries students days periods output_path = Some out ->
  [seq cmd <- out | is_block cmd] =
  [seq BrokenBarh (start_of periods e) 1
         (odflt 0 (dget (y_map students) (student_of e))) row_height
         (cmap (index (room_of e) (unique_rooms entries) %% 10))
  | e <- entries].
Proof.
rewrite /plot_schedule; case Ee: entries => [|e0 es]; first by case=> <-.
rewrite -Ee; case Eb: (lesson_blocks _ _ _ _) => [blocks|] //.
case: (top_y students) => // top; case: (legend_handles _ _) => // handles.
case=> <-; rewrite /= filter_cat /= !filter_cat /= !filter_map_none //.
rewrite !cats0 (oforeach_some Eb) filter_foreach -foreach_seq1.
apply: eq_in_foreach => e ee; have [ys] := oforeach_in Eb ee.
rewrite dget_room_colors mem_unique_rooms map_f //.
by case: (dget (y_map students) _) => // y _.
Qed.

(** ** The rows of the students *)

Lemma index_rev_uniq (A : eqType) (l : seq A) (a : A) :
  uniq l -> a \in l -> index a (rev l) = size l - (index a l).+1.
Proof.
move=> ul al; have lt : index a l < size l by rewrite index_mem.
have ltj : size l - (index a l).+1 < size l.
  by rewrite ltn_subrL /= (leq_ltn_trans _ lt).
have Ej : nth a (rev l) (size l - (index a l).+1) = a.
  by rewrite nth_rev // subnSK // subKn ?(ltnW lt) // nth_index.
by rewrite -[in LHS]Ej index_uniq ?size_rev ?rev_uniq.
Qed.

Lemma dget_y_map (students : seq string) (s : string) :
  uniq students -> s \in students ->
  dget (y_map students) s =
  Some (y_of (size students - (index s students).+1)).
Proof.
move=> uS sS; rewrite /y_map /enumerate.
have uK : uniq (keys [seq (ist.2, y_of ist.1)
                     | ist <- zip (iota 0 (size (reversed_students students)))
                                  (reversed_students students)]).
  by rewrite (keys_enum y_of) /reversed_students rev_uniq.
rewrite (dict_of_uniq uK) (dget_enum y_of) add0n /reversed_students mem_rev sS.
by rewrite index_rev_uniq.
Qed.

(** X9.  With no student listed twice, the rows are stacked in the order of
    the list, the first student on top: a student listed before another is
    drawn at least a row height plus the row gap above it. *)
Theorem rows_stack_downwards (students : seq string) (s1 s2 : string) :
  uniq students -> s1 \in students -> s2 \in students ->
  index s1 students < index s2 students ->
  exists y1 y2,
    [/\ dget (y_map students) s1 = Some y1, dget (y_map students) s2 = Some y2
      & y2 + row_height + row_gap <= y1].
Proof.
move=> uS s1S s2S lt12; rewrite !dget_y_map //.
do 2!eexists; split; [by [] | by [] |].
have lt2 : index s2 students < size students by rewrite index_mem.
rewrite /y_of -2!addnA leq_add2l [X in X <= _]addnC -mulSn leq_mul2r.
apply/orP; right.
by apply: ltn_sub2l; rewrite ?ltnS // (leq_ltn_trans lt12).
Qed.

(** ** The axes *)

Lemma dget_values (K V : eqType) (d : dict K V) k y :
  dget d k = Some y -> y \in values d.
Proof.
rewrite /values; elim: d => [|[k1 y1] d IH] //=; rewrite in_cons.
by case: (k1 == k) => [[->]|/IH ->]; rewrite ?eqxx ?orbT.
Qed.

Lemma mem_values_dset (K V : eqType) (d : dict K V) k y y' :
  y' \in values (dset d k y) -> (y' == y) || (y' \in values d).
Proof.
rewrite /values; elim: d => [|[k1 y1] d IH] /=; first by rewrite mem_seq1 orbF.
case: (k1 == k) => /=; rewrite !in_cons; first by case/orP=> ->; rewrite ?orbT.
by case/orP=> [->|/IH /orP [] ->]; rewrite ?orbT.
Qed.

Lemma mem_values_foldl (K V : eqType) (d items : dict K V) y :
  y \in values (foldl (fun d kv => dset d kv.1 kv.2) d items) ->
  (y \in values d) || (y \in values items).
Proof.
elim: items d => [|[k1 y1] items IH] d /=; first by move=> ->.
move/IH => /orP [/mem_values_dset /orP [/eqP ->|->] //|yi].
  by rewrite in_cons eqxx orbT.
by rewrite in_cons yi !orbT.
Qed.

Lemma mem_values_dict_of (K V : eqType) (items : seq (K * V)) y :
  y \in values (dict_of items) -> y \in values items.
Proof. by move/mem_values_foldl. Qed.

Lemma leq_foldr_maxn (y0 : nat) (ys : seq nat) y :
  y \in y0 :: ys -> y <= foldr maxn y0 ys.
Proof.
elim: ys => [|a ys IH] /=; first by rewrite mem_seq1 => /eqP ->.
rewrite !in_cons leq_max orbCA => /orP [/eqP ->|]; first by rewrite leqnn.
by rewrite -in_cons => /IH ->; rewrite orbT.
Qed.

(** X10.  Nothing is drawn outside the axes: an entry whose day and period
    are within range has its block between the x limits 0 and
    [total_slots], and the row of its student lies between the y limits 8
    and [top_y + 3]. *)
Theorem block_inside_axes (students days : seq string) (periods : seq nat)
    (e : Entry) (y top : nat) :
  top_y students = Some top ->
  dget (y_map students) (student_of e) = Some y ->
  day_of e < size days -> period_of e < size periods ->
  [/\ start_of periods e + 1 <= total_slots days periods,
      8 < y & y + row_height < top + 3].
Proof.
move=> Etop Ey ltd ltp; split.
- rewrite /start_of /total_slots /period_count addn1 -addnS.
  apply: leq_trans (_ : (day_of e).+1 * size periods <= _).
    by rewrite mulSn addnC leq_add2r.
  by rewrite leq_mul2r ltd orbT.
- have /mem_values_dict_of /mapP [it /mapP [ist _ ->] ->] := dget_values Ey.
  by rewrite /y_of ltn_addr.
- move: Etop (dget_values Ey); rewrite /top_y.
  case: (values _) => [|y0 ys] // [<-] /leq_foldr_maxn le.
  rewrite -!addnA.
  apply: (@leq_ltn_trans (foldr maxn y0 ys + row_height));
    first by rewrite leq_add2r.
  by rewrite ltn_add2l -[X in X < _]addn0 ltn_add2l.
Qed.

(** ** Ticks and labels *)

Lemma nth_foreach_const (A B : Type) (a0 : A) (y0 : B) (l : seq A)
    (body : A -> seq B) (n d i : nat) :
  (forall a, size (body a) = n) -> d < size l -> i < n ->
  nth y0 (foreach l body) (d * n + i) = nth y0 (body (nth a0 l d)) i.
Proof.
move=> szb; elim: l d => [|a l IH] [|d] //= ltd lti.
  by rewrite foreach_cons nth_cat szb mul0n add0n lti.
rewrite foreach_cons nth_cat szb mulSn -addnA ltnNge leq_addr /=.
by rewrite addKn IH.
Qed.

(** X11.  With [periods = range(n)], the block of an entry whose day and
    period are within range is centred on the minor tick that carries the
    name of its day and the number of its period. *)
Theorem block_under_its_label (days : seq string) (n : nat) (e : Entry) :
  day_of e < size days -> period_of e < n ->
  nth (Halves 0) (centers days (range n)) (start_of (range n) e)
    = Halves (2 * start_of (range n) e + 1)
  /\ nth "" (center_labels days (range n)) (start_of (range n) e)
    = (nth "" days (day_of e) ++ LF ++ "P" ++ str (period_of e + 1))%string.
Proof.
move=> ltd ltp.
have szr : size (range n) = n by rewrite /range size_iota.
have lts : start_of (range n) e < total_slots days (range n).
  rewrite /start_of /total_slots /period_count szr.
  apply: leq_trans (_ : (day_of e).+1 * n <= _).
    by rewrite mulSn addnC ltn_add2r.
  by rewrite leq_mul2r ltd orbT.
split.
  rewrite /centers (nth_map 0) /range ?size_iota //.
  by rewrite nth_iota.
rewrite /center_labels /start_of /period_count szr.
have szb (day_name : string) :
    size (foreach (range n) (fun period_idx =>
            [:: (day_name ++ LF ++ "P" ++ str (period_idx + 1))%string])) = n.
  by rewrite foreach_seq1 size_map.
rewrite (nth_foreach_const "" "" szb ltd ltp).
by rewrite foreach_seq1 (nth_map 0) ?szr // /range nth_iota.
Qed.

(** ** The chart of the script *)

Lemma entries_known c v e : e \in entries c v -> student_of e \in students c.
Proof.
by rewrite mem_entries x_loopE mem_nest => /andP [/and5P []].
Qed.

Lemma entries_in_range c v e :
  e \in entries c v ->
  day_of e < size (days c) /\ period_of e < n_periods c.
Proof.
rewrite mem_entries x_loopE mem_nest => /andP [/and5P [_ _ dD pP _] _].
by move: dD pP; rewrite /day_indices /periods /range !mem_iota !add0n.
Qed.

Lemma entries_slot_uniq c m v :
  model c = Some m -> satisfies m v -> uniq (students c) ->
  uniq [seq (student_of e, day_of e, period_of e) | e <- entries c v].
Proof.
move=> build_ok sat uS; apply: uniq_by_count => e.
rewrite mem_entries => /andP [kx vk].
have -> : count (fun e' => (student_of e', day_of e', period_of e')
                           == (student_of e, day_of e, period_of e))
                (entries c v) =
          count (fun e' => [&& var_student (var_of e') == var_student (var_of e),
                               var_day (var_of e') == var_day (var_of e)
                             & var_period (var_of e') == var_period (var_of e)])
                (entries c v).
  by apply: eq_count => e' /=; rewrite !xpair_eqE -andbA.
rewrite (count_entries c v (fun k' =>
   [&& var_student k' == var_student (var_of e),
       var_day k' == var_day (var_of e)
     & var_period k' == var_period (var_of e)])).
move: kx; rewrite x_loopE mem_nest => /and5P [sS _ dD pP _].
exact: (student_slice build_ok sat uS sS dD pP).
Qed.

(** X12.  In the chart of an accepted answer no two blocks coincide: with
    no student listed twice, the entries have pairwise different pairs of
    [start] and row. *)
Theorem chart_blocks_distinct (S : CpSolver) (c : Config) (m : CpModel) :
  model c = Some m -> accepted (Solve S m).1 -> uniq (students c) ->
  uniq [seq (start_of (periods c) e,
             odflt 0 (dget (y_map (students c)) (student_of e)))
       | e <- entries c (Solve S m).2].
Proof.
move=> build_ok /Solve_sound sat uS; set v := (Solve S m).2 in sat *.
pose place (slot : string * nat * nat) :=
  (slot.1.2 * period_count (periods c) + slot.2,
   odflt 0 (dget (y_map (students c)) slot.1.1)).
rewrite -[X in uniq X]/(map (fun e => place (student_of e, day_of e,
                                             period_of e)) (entries c v)).
have szp : period_count (periods c) = n_periods c.
  by rewrite /period_count /periods /range size_iota.
suff inj : {in [seq (student_of e, day_of e, period_of e) | e <- entries c v] &,
            injective place}.
  rewrite (map_comp place) (map_inj_in_uniq inj).
  exact: (entries_slot_uniq build_ok sat uS).
move=> _ _ /mapP [e1 e1e ->] /mapP [e2 e2e ->]; rewrite /place /= szp.
have [_ lt1] := entries_in_range e1e; have [_ lt2] := entries_in_range e2e.
have s1S := entries_known e1e; have s2S := entries_known e2e.
rewrite !dget_y_map //= => -[Estart Ey].
have Es : student_of e1 = student_of e2.
  have lti1 : index (student_of e1) (students c) < size (students c).
    by rewrite index_mem.
  have lti2 : index (student_of e2) (students c) < size (students c).
    by rewrite index_mem.
  move/eqP: Ey; rewrite /y_of eqn_add2l eqn_mul2r /= => /eqP Ei.
  have Eidx : index (student_of e1) (students c)
              = index (student_of e2) (students c).
    apply/eqP; rewrite -eqSS -(eqn_add2l (size (students c) -
                 (index (student_of e1) (students c)).+1)).
    by rewrite {2}Ei !subnK.
  by rewrite -(nth_index "" s1S) Eidx nth_index.
have Ed : day_of e1 = day_of e2.
  have := congr1 (divn^~ (n_periods c)) Estart.
  by rewrite !divnMDl ?(leq_ltn_trans _ lt1) // !divn_small // !addn0.
have Ep : period_of e1 = period_of e2.
  have := congr1 (modn^~ (n_periods c)) Estart.
  by rewrite !modnMDl !modn_small.
by rewrite Es Ed Ep.
Qed.

(** X13.  Every entry that the script hands to [plot_schedule] meets what the
    function needs of it: its student is a key of [y_map], so that the lookup
    of line 56 finds a row; [y_map] is not empty, so that [max] of line 99
    has a value; and its day and period index are within [days] and
    [periods]. *)
Theorem script_entries_fit_chart (c : Config) (v : Assignment) (e : Entry) :
  e \in entries c v ->
  exists y top,
    [/\ dget (y_map (students c)) (student_of e) = Some y,
        top_y (students c) = Some top,
        day_of e < size (days c) & period_of e < size (periods c)].
Proof.
move=> ee; have [ltd ltp] := entries_in_range ee.
have := entries_known ee; rewrite -mem_y_map -dget_some.
case Ey: (dget _ _) => [y|] // _.
have := dget_values Ey; rewrite /top_y; case: (values _) => [|y0 ys] // _.
exists y, (foldr maxn y0 ys + row_height + 4); split=> //.
by rewrite /periods /range size_iota.
Qed.

(** ** The order of strings *)

Lemma ascii_compare_lt_trans (a b c : ascii) :
  Ascii.compare a b = Lt -> Ascii.compare b c = Lt -> Ascii.compare a c = Lt.
Proof.
rewrite /Ascii.compare !BinNat.N.compare_lt_iff; exact: BinNat.N.lt_trans.
Qed.

Lemma string_compare_lt_trans (s1 s2 s3 : string) :
  String.compare s1 s2 = Lt -> String.compare s2 s3 = Lt ->
  String.compare s1 s3 = Lt.
Proof.
elim: s1 s2 s3 => [|a s1 IH] [|b s2] [|c s3] //=.
case Eab: (Ascii.compare a b) => //; case Ebc: (Ascii.compare b c) => //.
- by rewrite (Ascii.compare_eq_iff _ _ Eab) Ebc; apply: IH.
- by rewrite (Ascii.compare_eq_iff _ _ Eab) Ebc.
- by rewrite -(Ascii.compare_eq_iff _ _ Ebc) Eab.
- by rewrite (ascii_compare_lt_trans Eab Ebc).
Qed.

Lemma leb_trans : transitive String.leb.
Proof.
move=> s2 s1 s3; rewrite /String.leb.
case E12: (String.compare s1 s2) => // _; case E23: (String.compare s2 s3) => // _.
- by rewrite (String.compare_eq_iff _ _ E12) E23.
- by rewrite (String.compare_eq_iff _ _ E12) E23.
- by rewrite -(String.compare_eq_iff _ _ E23) E12.
- by rewrite (string_compare_lt_trans E12 E23).
Qed.

Lemma leb_total : total String.leb.
Proof. by move=> s1 s2; case: (String.leb_total s1 s2) => ->; rewrite ?orbT. Qed.

Lemma leb_antisym : antisymmetric String.leb.
Proof. by move=> s1 s2 /andP [le12 le21]; apply: String.leb_antisym. Qed.

(** ** The rooms and the legend *)

(** X14.  [unique_rooms] lists the rooms of the entries once each, in
    increasing order of strings, and it is the same list for any entries
    with the same set of rooms: the order in which Python iterates the set
    does not show. *)
Theorem unique_rooms_sorted_set (entries : seq Entry) :
  [/\ sorted String.leb (unique_rooms entries),
      uniq (unique_rooms entries),
      unique_rooms entries =i [seq room_of e | e <- entries]
    & forall entries' : seq Entry,
        [seq room_of e | e <- entries'] =i [seq room_of e | e <- entries] ->
        unique_rooms entries' = unique_rooms entries].
Proof.
split.
- by rewrite /unique_rooms sort_sorted //; apply: leb_total.
- exact: unique_rooms_uniq.
- by move=> r; rewrite mem_unique_rooms.
- move=> entries' same; rewrite /unique_rooms.
  apply/(perm_sortP leb_total leb_trans leb_antisym).
  by apply: uniq_perm; rewrite ?undup_uniq // => r; rewrite !mem_undup same.
Qed.

(** X15.  The legend has one handle per room of the entries, in the sorted
    order of the rooms, and each handle has the colour in which the blocks
    of its room are drawn. *)
Theorem legend_matches_blocks (Color : Type) (cmap : nat -> Color)
    (entries : seq Entry) :
  legend_handles cmap entries =
  Some [seq (cmap (index room (unique_rooms entries) %% 10), room)
       | room <- unique_rooms entries].
Proof.
have := legend_handles_total cmap entries.
case El: (legend_handles cmap entries) => [handles|] // _.
rewrite (oforeach_some El) -foreach_seq1; congr Some.
by apply: eq_in_foreach => room rU; rewrite dget_room_colors rU.
Qed.

(** ** The further properties on the example data *)

Lemma solver_b_accepted : accepted (Solve solver_b model_b).1.
Proof. by rewrite solver_b_optimal. Qed.

(** X1 on the shipped tables: 6 required lessons, 6 slots of ["T1"]. *)
Lemma sanity_check_is_necessary_scenario_b :
  required_A_lessons scenario_b = Some 6 /\ 6 <= t1_capacity scenario_b.
Proof.
have req : required_A_lessons scenario_b = Some 6 by [].
have inA : "A" \in subjects scenario_b by [].
have T1 : dget (teachers scenario_b) "A" = Some "T1" by [].
exact (conj req (sanity_check_is_necessary model_b_ok solver_b_accepted
                   inA T1 req)).
Defined.

(** X2 on the shipped tables. *)
Lemma total_entries_scenario_b :
  size (entries scenario_b (Solve solver_b model_b).2) =
  size (students scenario_b) *
  sumn [seq odflt 0 (dget (subject_hours scenario_b) subj)
       | subj <- subjects scenario_b].
Proof. exact (total_entries model_b_ok solver_b_accepted). Defined.

(** X3 on the shipped tables. *)
Lemma week_holds_all_quotas_scenario_b :
  sumn [seq odflt 0 (dget (subject_hours scenario_b) subj)
       | subj <- subjects scenario_b]
  <= size (days scenario_b) * n_periods scenario_b.
Proof.
have some : students scenario_b != [::] by [].
exact (week_holds_all_quotas model_b_ok solver_b_accepted some).
Defined.

(** X4 on the shipped tables. *)
Lemma report_one_line_per_slot_scenario_b :
  let c := scenario_b in
  let v := (Solve solver_b model_b).2 in
  report c v =
    foreach (students c) (fun s =>
      (LF ++ "Schedule for " ++ s)%string ::
      foreach (day_indices c) (fun d =>
      foreach (periods c) (fun p => [:: slot_line c v s d p])))
  /\ size (report c v) = size (students c) * (1 + size (days c) * n_periods c).
Proof. exact (report_one_line_per_slot model_b_ok solver_b_accepted). Defined.

(** X5 on tables in which subject ["B"] has no room. *)
Lemma missing_key_raises_room_missing :
  model room_missing = None
  /\ main (hint_solver (true_on [::])) room_missing = None.
Proof.
have missing :
    ("A" \notin keys (subject_hours room_missing))
    || (students room_missing != [::])
       && has (fun subj => [|| subj \notin keys (subject_hours room_missing),
                               subj \notin keys (teachers room_missing)
                             | subj \notin keys (rooms room_missing)])
              (subjects room_missing) by [].
exact (missing_key_raises (hint_solver (true_on [::])) missing).
Defined.

(** X6 on the shipped tables. *)
Lemma x_holds_every_variable_scenario_b :
  x scenario_b = x_loop scenario_b
  /\ size (x scenario_b) =
     size (students scenario_b) * (size (subjects scenario_b) *
       (size (days scenario_b) *
          (n_periods scenario_b * size (rooms scenario_b)))).
Proof.
have uS : uniq (students scenario_b) by [].
have uSub : uniq (subjects scenario_b) by [].
have uR : uniq (room_list scenario_b) by [].
exact (x_holds_every_variable uS uSub uR).
Defined.

(** X7 on [chart_demo] with student ["S2"] left out. *)
Lemma plot_schedule_unknown_student_chart_demo :
  plot_schedule palette_index chart_demo [:: "S1"] [:: "Mon"; "Tue"] (range 2)
                "demo.png" = None.
Proof.
have unknown : has (fun e => student_of e \notin [:: "S1"]) chart_demo by [].
exact (plot_schedule_unknown_student palette_index [:: "Mon"; "Tue"] (range 2)
         "demo.png" unknown).
Defined.

(** X8 on [chart_demo]. *)
Lemma one_block_per_entry_chart_demo :
  exists2 out,
    plot_schedule palette_index chart_demo [:: "S1"; "S2"] [:: "Mon"; "Tue"]
                  (range 2) "demo.png" = Some out
    & [seq cmd <- out | is_block cmd] =
      [:: BrokenBarh 0 1 25 8 0; BrokenBarh 1 1 10 8 1; BrokenBarh 3 1 25 8 1].
Proof.
have known : {in chart_demo, forall e, student_of e \in [:: "S1"; "S2"]}.
  by move=> e; rewrite !inE; do 2?[case/orP => [/eqP ->|] //]; move/eqP->.
have [out Eout _] :=
  plot_schedule_total palette_index [:: "Mon"; "Tue"] (range 2) "demo.png"
                      known.
exact (ex_intro2 _ _ out Eout (one_block_per_entry Eout)).
Defined.

(** X9 with three students: the first and the third. *)
Lemma rows_stack_downwards_three :
  exists y1 y2,
    [/\ dget (y_map [:: "S1"; "S2"; "S3"]) "S1" = Some y1,
        dget (y_map [:: "S1"; "S2"; "S3"]) "S3" = Some y2
      & y2 + row_height + row_gap <= y1].
Proof.
have uS : uniq [:: "S1"; "S2"; "S3"] by [].
have s1 : "S1" \in [:: "S1"; "S2"; "S3"] by [].
have s3 : "S3" \in [:: "S1"; "S2"; "S3"] by [].
have lt : index "S1" [:: "S1"; "S2"; "S3"] < index "S3" [:: "S1"; "S2"; "S3"].
  by [].
exact (rows_stack_downwards uS s1 s3 lt).
Defined.

(** X10 with two students: the last slot of the week on the top row. *)
Lemma block_inside_axes_last_slot :
  let e : Entry := ("S1", 1, 1, "B", "Room_B") in
  [/\ start_of (range 2) e + 1 <= total_slots [:: "Mon"; "Tue"] (range 2),
      8 < 25 & 25 + row_height < 37 + 3].
Proof.
have top : top_y [:: "S1"; "S2"] = Some 37 by [].
have row : dget (y_map [:: "S1"; "S2"])
                (student_of ("S1", 1, 1, "B", "Room_B")) = Some 25 by [].
have ltd : day_of ("S1", 1, 1, "B", "Room_B") < size [:: "Mon"; "Tue"] by [].
have ltp : period_of ("S1", 1, 1, "B", "Room_B") < size (range 2) by [].
exact (block_inside_axes top row ltd ltp).
Defined.

(** X11 on Tuesday, third period, of a week of three periods a day. *)
Lemma block_under_its_label_tuesday :
  let e : Entry := ("S1", 1, 2, "A", "Room_A") in
  nth (Halves 0) (centers (days scenario_b) (range 3)) (start_of (range 3) e)
    = Halves (2 * start_of (range 3) e + 1)
  /\ nth "" (center_labels (days scenario_b) (range 3)) (start_of (range 3) e)
    = (nth "" (days scenario_b) (day_of e) ++ LF ++ "P"
       ++ str (period_of e + 1))%string.
Proof.
have ltd : day_of ("S1", 1, 2, "A", "Room_A") < size (days scenario_b) by [].
have ltp : period_of ("S1", 1, 2, "A", "Room_A") < 3 by [].
exact (block_under_its_label ltd ltp).
Defined.

(** X12 on the shipped tables. *)
Lemma chart_blocks_distinct_scenario_b :
  uniq [seq (start_of (periods scenario_b) e,
             odflt 0 (dget (y_map (students scenario_b)) (student_of e)))
       | e <- entries scenario_b (Solve solver_b model_b).2].
Proof.
have uS : uniq (students scenario_b) by [].
exact (chart_blocks_distinct model_b_ok solver_b_accepted uS).
Defined.

(** X13 on the shipped tables and [timetable_b]. *)
Lemma script_entries_fit_chart_scenario_b :
  exists y top,
    [/\ dget (y_map (students scenario_b))
             (student_of ("S1", 1, 0, "A", "Room_A")) = Some y,
        top_y (students scenario_b) = Some top,
        day_of ("S1", 1, 0, "A", "Room_A") < size (days scenario_b)
      & period_of ("S1", 1, 0, "A", "Room_A") < size (periods scenario_b)].
Proof.
have mem : ("S1", 1, 0, "A", "Room_A")
             \in entries scenario_b (true_on timetable_b) by vm_compute.
exact (script_entries_fit_chart mem).
Defined.
